(** * shorelark: the browser driver script [template/index.js]

    A shallow embedding of the script that drives the simulation in the
    browser: it looks up two DOM elements, resizes the canvas for the
    device pixel ratio, installs two drawing helpers on the 2D context
    prototype and runs the [redraw] loop through [requestAnimationFrame].

    JavaScript numbers are IEEE 754 binary64 values, so they are embedded
    as Rocq's primitive [float]s.  The script runs against a host (the
    page, the canvas, the wasm simulation); the host is an explicit
    [State] threaded through a state-and-exception monad, and every host
    call is recorded, in program order, in the [trace] of that state. *)

From Stdlib Require Import Floats ZArith Lia Eqdep_dec.
From Stdlib Require Uint63.
From stdpp Require Import gmap strings list pretty.

Set Warnings "-inexact-float".

(** A number is expected where a component of a pair is a canvas
    dimension: the expected type of a pair is used for its components. *)
#[local] Arguments pair {A B} & a b.

(** ** JavaScript values used by the script *)

(** [Math.PI], the binary64 value closest to pi. *)
Module Math.
Definition PI : float := 3.141592653589793%float.
End Math.

(** [ToBoolean] of a number: [+0], [-0] and [NaN] are falsy. *)
Definition truthy (f : float) : bool := negb (is_zero f || is_nan f).

(** [ToBoolean] of a value that is a number or [undefined] ([None]). *)
Definition ToBoolean (v : option float) : bool :=
  match v with
  | Some f => truthy f
  | None => false
  end.

(** [ToNumber] of a value that is a number or [undefined]. *)
Definition ToNumber (v : option float) : float :=
  match v with
  | Some f => f
  | None => nan
  end.

(** [v || d] for a number-or-undefined [v] and a number [d]. *)
Definition js_or (v : option float) (d : float) : float :=
  match v with
  | Some f => if truthy f then f else d
  | None => d
  end.

(** ** The size of a canvas

    The [width] and [height] of a canvas element are not arbitrary
    numbers: the DOM declares them [unsigned long], and they hold an
    integer from 0 to [2^31 - 1].  Reading one gives that integer as a
    number.  Assigning a number converts it first to an unsigned long
    (the integer part, modulo [2^32]; [NaN] and the infinities give 0)
    and keeps the result when it is in range; otherwise the element
    falls back to its default, 300 for the width and 150 for the
    height. *)

Definition dimension_max : Z := 2147483647.

Record dimension := mkDimension {
  pixels : Z;
  pixels_in_range : ((0 <=? pixels) && (pixels <=? dimension_max))%Z = true
}.

(** Reading a dimension from JavaScript. *)
Definition Number_of_dimension (d : dimension) : float :=
  PrimFloat.of_uint63 (Uint63.of_Z (pixels d)).

Coercion Number_of_dimension : dimension >-> float.

(** The integer part of a number; 0 for [NaN] and the infinities. *)
Definition integer_part (x : float) : Z :=
  match Prim2SF x with
  | S754_finite s m e =>
      let a := Z.shiftl (Zpos m) e in
      if s then (- a)%Z else a
  | _ => 0%Z
  end.

(** The conversion of a number to [unsigned long]. *)
Definition ToUint32 (x : float) : Z := (integer_part x mod 4294967296)%Z.

(** An unsigned long as a dimension: itself in range, else the default. *)
Definition dimension_of (default : dimension) (z : Z) : dimension :=
  match Bool.bool_dec ((0 <=? z) && (z <=? dimension_max))%Z true with
  | left H => mkDimension z H
  | right _ => default
  end.

(** Assigning a number to a dimension whose default is [default]. *)
Definition set_dimension (default : dimension) (x : float) : dimension :=
  dimension_of default (ToUint32 x).

Definition default_width : dimension := mkDimension 300 eq_refl.

Definition default_height : dimension := mkDimension 150 eq_refl.

(** The engine and the wasm module are not part of the script: they are
    interfaces the script is written against. *)

(** [Math.sin] and [Math.cos] are implementation-approximated by the
    engine, and [Number::toString] is the engine's number-to-string
    conversion used by [viewportWidth + 'px']. *)
Class Engine := {
  Math_sin : float -> float;
  Math_cos : float -> float;
  Number_toString : float -> string
}.

(** A plain JavaScript object whose fields hold numbers: a food or animal
    snapshot.  A field that is absent reads as [undefined]. *)
Abbreviation JsObject := (gmap string float).

(** What [simulation.world()] computes: the food and animal snapshots. *)
Record World := mkWorld {
  w_foods : list JsObject;
  w_animals : list JsObject
}.

(** [lib-simulation-wasm]: the opaque [Simulation] object.  Its methods
    are functions of the state of the simulation; [world()] may change
    that state too.  None of them is taken to throw. *)
Class Wasm := {
  Sim : Type;
  Summary : Type;
  Simulation_new : Sim;
  Simulation_train : Sim -> Summary * Sim;
  Simulation_world : Sim -> World * Sim;
  Simulation_step : Sim -> Sim
}.

(** ** Host objects *)

(** [function() { console.log(simulation.train()); }] *)
Inductive Handler := TrainClick.

(** A DOM element, with the properties the script touches: [width] and
    [height] are the size of the drawing buffer of a canvas,
    [style_width] and [style_height] the CSS size in [el.style]. *)
Record Element := mkElement {
  onclick : option Handler;
  width : dimension;
  height : dimension;
  style_width : string;
  style_height : string
}.

(** The properties of a [CanvasRenderingContext2D] that [fill] and
    [stroke] consult. *)
Record Context2D := mkContext2D {
  fillStyle : string;
  strokeStyle : string
}.

(** The built-in context methods the script calls, with their arguments. *)
Inductive Call :=
| Scale (x y : float)
| BeginPath
| MoveTo (x y : float)
| LineTo (x y : float)
| Arc (x y radius startAngle endAngle : float)
| Stroke
| Fill
| ClearRect (x y w h : float).

(** The closure [redraw]: it captures the constants [ctxt],
    [viewportWidth] and [viewportHeight] of the script. *)
Inductive Callback :=
| Redraw (ctxt : option string) (viewportWidth viewportHeight : float).

(** The object returned by [simulation.world()] on the JavaScript side:
    two arrays of references to snapshot objects on the heap. *)
Record Snapshot := mkSnapshot {
  foods : list nat;
  animals : list nat
}.

Section Script.
Context `{!Wasm, !Engine}.

(** Host calls, in the order the script makes them. *)
Inductive Event :=
| Canvas (ctx : string) (c : Call)
| SimNew
| SimTrain
| SimWorld
| SimStep
| RequestAnimationFrame (cb : Callback)
| ConsoleLog (s : Summary).

(** The host.  Elements are found by id ([document.getElementById]);
    [contexts] holds the 2D context of each canvas that has one, under
    the id of the canvas; [heap] holds the snapshot objects handed out by
    the simulation, a reference being an index; [frames] is the list of
    callbacks waiting for the next animation frame. *)
Record State := mkState {
  document : gmap string Element;
  contexts : gmap string Context2D;
  devicePixelRatio : option float;
  simulation : Sim;
  heap : list JsObject;
  frames : list Callback;
  trace : list Event
}.

Definition with_document (d : gmap string Element) (st : State) : State :=
  mkState d (contexts st) (devicePixelRatio st) (simulation st) (heap st)
          (frames st) (trace st).

Definition with_contexts (c : gmap string Context2D) (st : State) : State :=
  mkState (document st) c (devicePixelRatio st) (simulation st) (heap st)
          (frames st) (trace st).

Definition with_simulation (s : Sim) (st : State) : State :=
  mkState (document st) (contexts st) (devicePixelRatio st) s (heap st)
          (frames st) (trace st).

Definition with_heap (h : list JsObject) (st : State) : State :=
  mkState (document st) (contexts st) (devicePixelRatio st) (simulation st) h
          (frames st) (trace st).

Definition with_frames (f : list Callback) (st : State) : State :=
  mkState (document st) (contexts st) (devicePixelRatio st) (simulation st)
          (heap st) f (trace st).

Definition with_trace (t : list Event) (st : State) : State :=
  mkState (document st) (contexts st) (devicePixelRatio st) (simulation st)
          (heap st) (frames st) t.

(** ** The monad: state plus uncaught exceptions *)

Inductive Fault := TypeError (msg : string).

Inductive Result (A : Type) :=
| Ok (a : A) (st : State)
| Throw (e : Fault) (st : State).
Arguments Ok {A} & a st.
Arguments Throw {A} e st.

Definition M (A : Type) : Type := State -> Result A.

#[global] Instance M_ret : MRet M := fun A a st => Ok a st.

#[global] Instance M_bind : MBind M := fun A B k m st =>
  match m st with
  | Ok a st' => k a st'
  | Throw e st' => Throw e st'
  end.

Definition throw {A : Type} (e : Fault) : M A := fun st => Throw e st.

Definition emit (e : Event) : M unit :=
  fun st => Ok tt (with_trace (trace st ++ [e]) st).

(** A method call [recv.method(...)]: a [null] receiver throws. *)
Definition invoke {A : Type} (recv : option string) (method : string -> M A) : M A :=
  match recv with
  | Some this => method this
  | None => throw (TypeError "Cannot read properties of null")
  end.

(** ** The DOM *)

(** [document.getElementById(id)]: a reference to the element, or [null]. *)
Definition getElementById (id : string) : M (option string) :=
  fun st => Ok (match document st !! id with
                | Some _ => Some id
                | None => None
                end) st.

(** Reading a property of an element. *)
Definition get_property {A : Type} (el : option string) (prop : Element -> A) : M A :=
  invoke el (fun id st =>
    match document st !! id with
    | Some e => Ok (prop e) st
    | None => Throw (TypeError "Cannot read properties of null") st
    end).

(** Writing a property of an element. *)
Definition set_property (el : option string) (upd : Element -> Element) : M unit :=
  match el with
  | Some id => fun st =>
      match document st !! id with
      | Some e => Ok tt (with_document (<[id := upd e]> (document st)) st)
      | None => Throw (TypeError "Cannot set properties of null") st
      end
  | None => throw (TypeError "Cannot set properties of null")
  end.

Definition set_onclick (h : Handler) (e : Element) : Element :=
  mkElement (Some h) (width e) (height e) (style_width e) (style_height e).

(** [el.width = v] and [el.height = v] *)
Definition set_width (v : float) (e : Element) : Element :=
  mkElement (onclick e) (set_dimension default_width v) (height e)
            (style_width e) (style_height e).

Definition set_height (v : float) (e : Element) : Element :=
  mkElement (onclick e) (width e) (set_dimension default_height v)
            (style_width e) (style_height e).

Definition set_style_width (v : string) (e : Element) : Element :=
  mkElement (onclick e) (width e) (height e) v (style_height e).

Definition set_style_height (v : string) (e : Element) : Element :=
  mkElement (onclick e) (width e) (height e) (style_width e) v.

(** [canvas.getContext('2d')]: a reference to the context of the canvas,
    or [null] when it has none. *)
Definition getContext (el : option string) : M (option string) :=
  invoke el (fun id st =>
    Ok (match contexts st !! id with
        | Some _ => Some id
        | None => None
        end) st).

(** [window.devicePixelRatio] *)
Definition window_devicePixelRatio : M (option float) :=
  fun st => Ok (devicePixelRatio st) st.

(** ** The 2D context *)

(** A built-in method of the context [this]. *)
Definition builtin (c : Call) (this : string) : M unit :=
  fun st =>
    match contexts st !! this with
    | Some _ => Ok tt (with_trace (trace st ++ [Canvas this c]) st)
    | None => Throw (TypeError "Cannot read properties of undefined") st
    end.

Definition scale (x y : float) := builtin (Scale x y).
Definition beginPath := builtin BeginPath.
Definition moveTo (x y : float) := builtin (MoveTo x y).
Definition lineTo (x y : float) := builtin (LineTo x y).
Definition arc (x y radius startAngle endAngle : float) :=
  builtin (Arc x y radius startAngle endAngle).
Definition stroke := builtin Stroke.
Definition fill := builtin Fill.
Definition clearRect (x y w h : float) := builtin (ClearRect x y w h).

(** [this.fillStyle = v] *)
Definition set_fillStyle (v : string) (this : string) : M unit :=
  fun st =>
    match contexts st !! this with
    | Some c =>
        Ok tt (with_contexts (<[this := mkContext2D v (strokeStyle c)]> (contexts st)) st)
    | None => Throw (TypeError "Cannot set properties of undefined") st
    end.

(** ** The simulation *)

(** [new sim.Simulation()] *)
Definition new_Simulation : M unit :=
  fun st => Ok tt (with_trace (trace st ++ [SimNew]) (with_simulation Simulation_new st)).

(** [simulation.train()] *)
Definition simulation_train : M Summary :=
  fun st =>
    let (s, sim') := Simulation_train (simulation st) in
    Ok s (with_trace (trace st ++ [SimTrain]) (with_simulation sim' st)).

(** [simulation.step()] *)
Definition simulation_step : M unit :=
  fun st =>
    Ok tt (with_trace (trace st ++ [SimStep])
             (with_simulation (Simulation_step (simulation st)) st)).

(** [simulation.world()]: the snapshot objects are allocated at the end
    of the heap, the foods first. *)
Definition simulation_world : M Snapshot :=
  fun st =>
    let (w, sim') := Simulation_world (simulation st) in
    let base := length (heap st) in
    Ok (mkSnapshot (seq base (length (w_foods w)))
                   (seq (base + length (w_foods w)) (length (w_animals w))))
       (with_trace (trace st ++ [SimWorld])
          (with_heap (heap st ++ w_foods w ++ w_animals w)
             (with_simulation sim' st))).

(** [obj.field] for a snapshot object [obj]. *)
Definition get (obj : nat) (field : string) : M (option float) :=
  fun st =>
    match heap st !! obj with
    | Some o => Ok (o !! field) st
    | None => Throw (TypeError "Cannot read properties of undefined") st
    end.

(** [console.log(s)] *)
Definition console_log (s : Summary) : M unit := emit (ConsoleLog s).

(** [requestAnimationFrame(cb)] *)
Definition requestAnimationFrame (cb : Callback) : M unit :=
  fun st =>
    Ok tt (with_trace (trace st ++ [RequestAnimationFrame cb])
             (with_frames (frames st ++ [cb]) st)).

(** [for (const x of xs) body] *)
Fixpoint for_of {A : Type} (xs : list A) (body : A -> M unit) : M unit :=
  match xs with
  | [] => mret tt
  | x :: xs' => body x;; for_of xs' body
  end.

(** ** The script *)

Local Open Scope float_scope.

(** [CanvasRenderingContext2D.prototype.drawTriangle] *)
Definition drawTriangle (x y size rotation : float) (this : string) : M unit :=
  beginPath this;;
  moveTo
    (x - Math_sin rotation * size * 1.5)
    (y + Math_cos rotation * size * 1.5) this;;
  lineTo
    (x - Math_sin (rotation + 2.0 / 3.0 * Math.PI) * size)
    (y + Math_cos (rotation + 2.0 / 3.0 * Math.PI) * size) this;;
  lineTo
    (x - Math_sin (rotation + 4.0 / 3.0 * Math.PI) * size)
    (y + Math_cos (rotation + 4.0 / 3.0 * Math.PI) * size) this;;
  lineTo
    (x - Math_sin rotation * size * 1.5)
    (y + Math_cos rotation * size * 1.5) this;;
  stroke this;;
  set_fillStyle "rgb(255, 255, 255)" this;;
  fill this.

(** [CanvasRenderingContext2D.prototype.drawCircle] *)
Definition drawCircle (x y radius : float) (this : string) : M unit :=
  beginPath this;;
  arc x y radius 0 (2.0 * Math.PI) this;;
  set_fillStyle "rgb(0, 255, 128)" this;;
  fill this.

(** [function redraw()].  A field of a snapshot is a number or is absent;
    an absent field reads as [undefined], which [*], [+] and [Math.sin]
    turn into [NaN], hence [ToNumber]. *)
Definition redraw (ctxt : option string) (viewportWidth viewportHeight : float) : M unit :=
  invoke ctxt (clearRect 0 0 viewportWidth viewportHeight);;
  simulation_step;;
  w ← simulation_world;
  for_of (foods w) (fun food =>
    food_x ← get food "x";
    food_y ← get food "y";
    invoke ctxt (drawCircle
      (ToNumber food_x * viewportWidth)
      (ToNumber food_y * viewportHeight)
      ((0.01 / 2.0) * viewportWidth)));;
  w ← simulation_world;
  for_of (animals w) (fun animal =>
    animal_x ← get animal "x";
    animal_y ← get animal "y";
    animal_rotation ← get animal "rotation";
    invoke ctxt (drawTriangle
      (ToNumber animal_x * viewportWidth)
      (ToNumber animal_y * viewportHeight)
      (0.01 * viewportWidth)
      (ToNumber animal_rotation)));;
  requestAnimationFrame (Redraw ctxt viewportWidth viewportHeight).

(** The [onclick] handler of the train button. *)
Definition train_click : M unit :=
  s ← simulation_train;
  console_log s.

(** A click on an element runs its handler, if it has one. *)
Definition run_handler (h : Handler) : M unit :=
  match h with
  | TrainClick => train_click
  end.

(** The top level of the script up to [ctxt.scale]: the set-up step.  It
    returns the constants that [redraw] captures.  The two assignments to
    [CanvasRenderingContext2D.prototype] that follow only define the
    helpers above. *)
Definition setup : M (option string * float * float) :=
  new_Simulation;;
  train ← getElementById "train";
  set_property train (set_onclick TrainClick);;
  world ← simulation_world;
  viewport ← getElementById "viewport";
  ctxt ← getContext viewport;
  viewportWidth ← get_property viewport (fun e => width e : float);
  viewportHeight ← get_property viewport (fun e => height e : float);
  dpr ← window_devicePixelRatio;
  let viewportScale := js_or dpr 1 in
  set_property viewport (set_width (viewportWidth * viewportScale));;
  set_property viewport (set_height (viewportHeight * viewportScale));;
  set_property viewport (set_style_width (Number_toString viewportWidth +:+ "px"));;
  set_property viewport (set_style_height (Number_toString viewportHeight +:+ "px"));;
  invoke ctxt (scale viewportScale viewportScale);;
  mret (ctxt, viewportWidth, viewportHeight).

(** The whole script: set-up, then the first call of [redraw]. *)
Definition main : M unit :=
  '(ctxt, viewportWidth, viewportHeight) ← setup;
  redraw ctxt viewportWidth viewportHeight.

(** ** Animation frames *)

Definition run_callback (cb : Callback) : M unit :=
  match cb with
  | Redraw ctxt viewportWidth viewportHeight => redraw ctxt viewportWidth viewportHeight
  end.

(** One animation-frame callback fires: the oldest pending callback is
    taken off the queue and runs to completion. *)
Inductive frame_step : State -> State -> Prop :=
| frame_fires st cb rest st' :
    frames st = cb :: rest ->
    run_callback cb (with_frames rest st) = Ok tt st' ->
    frame_step st st'.

Close Scope float_scope.

End Script.

Arguments Ok {_ A} & a st.
Arguments Throw {_ A} e st.

(** * What the script does, in closed form

    The definitions below describe the effect of the functions of the
    script without the monad and without loops; the properties are
    stated with them and proved of the script. *)

Section Effects.
Context `{!Wasm, !Engine}.

Local Open Scope float_scope.

(** The calls a triangle and a circle are made of. *)
Definition triangle_path (x y size rotation : float) : list Call :=
  [ BeginPath;
    MoveTo (x - Math_sin rotation * size * 1.5)
           (y + Math_cos rotation * size * 1.5);
    LineTo (x - Math_sin (rotation + 2.0 / 3.0 * Math.PI) * size)
           (y + Math_cos (rotation + 2.0 / 3.0 * Math.PI) * size);
    LineTo (x - Math_sin (rotation + 4.0 / 3.0 * Math.PI) * size)
           (y + Math_cos (rotation + 4.0 / 3.0 * Math.PI) * size);
    LineTo (x - Math_sin rotation * size * 1.5)
           (y + Math_cos rotation * size * 1.5);
    Stroke;
    Fill ].

Definition circle_path (x y radius : float) : list Call :=
  [ BeginPath; Arc x y radius 0 (2.0 * Math.PI); Fill ].


(** The state after [calls] were made on [this] and its fill colour was
    set to [color]. *)
Definition painted (this color : string) (calls : list Call) (cx : Context2D)
    (st : State) : State :=
  with_trace (trace st ++ map (Canvas this) calls)
    (with_contexts (<[this := mkContext2D color (strokeStyle cx)]> (contexts st)) st).

(** What is drawn for one food and for one animal. *)
Definition food_calls (w h : float) (o : JsObject) : list Call :=
  circle_path (ToNumber (o !! "x") * w) (ToNumber (o !! "y") * h)
              ((0.01 / 2.0) * w).

Definition animal_calls (w h : float) (o : JsObject) : list Call :=
  triangle_path (ToNumber (o !! "x") * w) (ToNumber (o !! "y") * h)
                (0.01 * w) (ToNumber (o !! "rotation")).

(** The contexts after [n] shapes were filled with [color] on [this]. *)
Definition fill_with (color : string) (n : nat) (this : string) (cx : Context2D)
    (cs : gmap string Context2D) : gmap string Context2D :=
  match n with
  | O => cs
  | S _ => <[this := mkContext2D color (strokeStyle cx)]> cs
  end.

(** The state after a loop drew the objects [os]. *)
Definition loop_post (this color : string) (calls : JsObject -> list Call)
    (os : list JsObject) (cx : Context2D) (st : State) : State :=
  with_trace (trace st ++ map (Canvas this) (flat_map calls os))
    (with_contexts (fill_with color (length os) this cx (contexts st)) st).

(** The state one call of [redraw] leaves. *)
Definition redraw_post (this : string) (w h : float) (cx : Context2D)
    (st : State) : State :=
  let sim1 := Simulation_step (simulation st) in
  let w1 := (Simulation_world sim1).1 in
  let sim2 := (Simulation_world sim1).2 in
  let w2 := (Simulation_world sim2).1 in
  let sim3 := (Simulation_world sim2).2 in
  mkState
    (document st)
    (fill_with "rgb(255, 255, 255)" (length (w_animals w2)) this cx
       (fill_with "rgb(0, 255, 128)" (length (w_foods w1)) this cx (contexts st)))
    (devicePixelRatio st)
    sim3
    (heap st ++ (w_foods w1 ++ w_animals w1) ++ (w_foods w2 ++ w_animals w2))
    (frames st ++ [Redraw (Some this) w h])
    (trace st
       ++ [Canvas this (ClearRect 0 0 w h); SimStep; SimWorld]
       ++ map (Canvas this) (flat_map (food_calls w h) (w_foods w1))
       ++ [SimWorld]
       ++ map (Canvas this) (flat_map (animal_calls w h) (w_animals w2))
       ++ [RequestAnimationFrame (Redraw (Some this) w h)]).

(** The viewport element after the set-up step. *)
Definition resized (dpr : option float) (v : Element) : Element :=
  mkElement (onclick v)
            (set_dimension default_width (width v * js_or dpr 1))
            (set_dimension default_height (height v * js_or dpr 1))
            (Number_toString (width v) +:+ "px")
            (Number_toString (height v) +:+ "px").

(** The state the set-up step leaves on a page that has both elements
    and a 2D context. *)
Definition setup_post (b v : Element) (st : State) : State :=
  mkState
    (<["viewport" := resized (devicePixelRatio st) v]>
       (<["train" := set_onclick TrainClick b]> (document st)))
    (contexts st)
    (devicePixelRatio st)
    (Simulation_world Simulation_new).2
    (heap st ++ w_foods (Simulation_world Simulation_new).1
             ++ w_animals (Simulation_world Simulation_new).1)
    (frames st)
    (trace st ++ [SimNew; SimWorld;
                  Canvas "viewport" (Scale (js_or (devicePixelRatio st) 1)
                                           (js_or (devicePixelRatio st) 1))]).

(** Recognises the call of [simulation.step()] in a trace. *)
Definition is_SimStep (e : Event) : bool :=
  match e with
  | SimStep => true
  | _ => false
  end.

(** Two foods, or two animals, that agree on the fields [redraw] names. *)
Definition same_food (o o' : JsObject) : Prop :=
  o !! "x" = o' !! "x" /\ o !! "y" = o' !! "y".

Definition same_animal (o o' : JsObject) : Prop :=
  o !! "x" = o' !! "x" /\ o !! "y" = o' !! "y"
  /\ o !! "rotation" = o' !! "rotation".

(** The loop is alive: the one pending callback is [redraw], closed over
    a context that exists. *)
Definition looping (st : State) : Prop :=
  exists this w h cx,
    frames st = [Redraw (Some this) w h] /\ contexts st !! this = Some cx.

End Effects.

(** * The page between frames

    Besides animation frames, the page reacts to clicks: the browser runs
    the [onclick] handler of the element that is clicked. *)

Section Clicks.
Context `{!Wasm, !Engine}.

(** A click on the element [id]: its handler runs, if it has one. *)
Definition click (id : string) : M unit :=
  fun st =>
    match document st !! id with
    | Some e =>
        match onclick e with
        | Some h => run_handler h st
        | None => Ok tt st
        end
    | None => Ok tt st
    end.

(** The page moves when an animation frame fires or an element is
    clicked. *)
Inductive page_step : State -> State -> Prop :=
| page_frame st st' : frame_step st st' -> page_step st st'
| page_click st id st' : click id st = Ok tt st' -> page_step st st'.

(** Recognises the call of [ctxt.scale] in a trace. *)
Definition is_Scale (e : Event) : bool :=
  match e with
  | Canvas _ (Scale _ _) => true
  | _ => false
  end.

End Clicks.

(** ** A concrete host

    A small page, engine and simulation on which the script can be run:
    a 300x150 canvas, a simulation whose state is the number of steps
    taken and whose world holds one food and one animal. *)
Module Demo.

Local Open Scope float_scope.

(** Taylor polynomials stand for the engine's [sin] and [cos]. *)
Definition sin (x : float) : float :=
  let x2 := x * x in
  x * (1 - x2 / 6 * (1 - x2 / 20 * (1 - x2 / 42 * (1 - x2 / 72 * (1 - x2 / 110))))).

Definition cos (x : float) : float :=
  let x2 := x * x in
  1 - x2 / 2 * (1 - x2 / 12 * (1 - x2 / 30 * (1 - x2 / 56 * (1 - x2 / 90)))).

(** Decimal digits of a number with an integral value. *)
Definition toString (f : float) : string :=
  match Prim2SF f with
  | S754_zero _ => "0"
  | S754_finite false m e => pretty (Z.shiftl (Zpos m) e)
  | S754_finite true m e => "-" +:+ pretty (Z.shiftl (Zpos m) e)
  | S754_infinity false => "Infinity"
  | S754_infinity true => "-Infinity"
  | S754_nan => "NaN"
  end.

Definition engine : Engine := Build_Engine sin cos toString.

Definition food : JsObject := {[ "x" := 0.25; "y" := 0.5 ]}.

(** The animal carries a field the script has no use for; its value
    changes from step to step. *)
Definition animal (s : nat) : JsObject :=
  {[ "x" := 0.5; "y" := 0.75; "rotation" := 0;
     "vision" := if Nat.even s then 9 else 7 ]}.

Definition wasm : Wasm :=
  Build_Wasm nat string 0%nat
    (fun s => ("min=0 max=1 avg=0.5"%string, s))
    (fun s => (mkWorld [food] [animal s], s))
    S.

Definition button : Element :=
  mkElement None (mkDimension 0 eq_refl) (mkDimension 0 eq_refl) "" "".

Definition canvas : Element := mkElement None default_width default_height "" "".

Definition context : Context2D := mkContext2D "#000000" "#000000".

(** The page before the script runs, for a given device pixel ratio. *)
Definition page (dpr : option float) : @State wasm :=
  @mkState wasm {[ "train" := button; "viewport" := canvas ]}
          {[ "viewport" := context ]}
          dpr 0%nat [] [] [].

(** The same page with a canvas that gives no 2D context. *)
Definition page_without_context : @State wasm :=
  @mkState wasm {[ "train" := button; "viewport" := canvas ]} ∅
          (Some 2) 0%nat [] [] [].

End Demo.

(** ** Other pages and worlds

    The page of [Demo] without its train button, a page whose canvas is
    one pixel wide and high on a display of ratio 0.5, and simulations
    whose world never changes: one with nothing in it, one whose only
    food has no field [x]. *)
Module Cases.

Local Open Scope float_scope.

Definition page_without_train : @State Demo.wasm :=
  @mkState Demo.wasm {[ "viewport" := Demo.canvas ]}
          {[ "viewport" := Demo.context ]}
          None 0%nat [] [] [].

Definition dot : Element :=
  mkElement None (mkDimension 1 eq_refl) (mkDimension 1 eq_refl) "" "".

Definition dot_page : @State Demo.wasm :=
  @mkState Demo.wasm {[ "train" := Demo.button; "viewport" := dot ]}
          {[ "viewport" := Demo.context ]}
          (Some 0.5) 0%nat [] [] [].

Definition fixed (w : World) : Wasm :=
  Build_Wasm nat string 0%nat (fun s => ("trained"%string, s)) (fun s => (w, s)) S.

Definition empty_wasm : Wasm := fixed (mkWorld [] []).

Definition food_without_x : JsObject := {[ "y" := 0.5 ]}.

Definition sparse_wasm : Wasm := fixed (mkWorld [food_without_x] []).

Definition empty_page : @State empty_wasm :=
  @mkState empty_wasm {[ "train" := Demo.button; "viewport" := Demo.canvas ]}
          {[ "viewport" := Demo.context ]}
          None 0%nat [] [] [].

Definition sparse_page : @State sparse_wasm :=
  @mkState sparse_wasm {[ "train" := Demo.button; "viewport" := Demo.canvas ]}
          {[ "viewport" := Demo.context ]}
          None 0%nat [] [] [].

End Cases.

(** * Facts about binary64 arithmetic

    The operations on [float] are specified by the functions of
    [SpecFloat] on a sign, a mantissa and an exponent.  Two facts about
    multiplication are needed: multiplying by 1 is exact, and [NaN] times
    any number is [NaN]. *)

Section FloatFacts.

Local Open Scope Z_scope.


Lemma Zdigits2_xO (p : positive) :
  Zpos (digits2_pos p~0) = Zpos (digits2_pos p) + 1.
Proof. simpl digits2_pos. rewrite Pos2Z.inj_succ. lia. Qed.

Lemma Zdigits2_xI (p : positive) :
  Zpos (digits2_pos p~1) = Zpos (digits2_pos p) + 1.
Proof. simpl digits2_pos. rewrite Pos2Z.inj_succ. lia. Qed.


Lemma digits2_pos_bounds (p : positive) :
  2 ^ (Zpos (digits2_pos p) - 1) <= Zpos p < 2 ^ Zpos (digits2_pos p).
Proof.
  induction p as [p IH | p IH |].
  - rewrite Zdigits2_xI. replace (Z.pos (digits2_pos p) + 1 - 1) with (Z.succ (Z.pos (digits2_pos p) - 1)) by lia.
    rewrite Z.pow_succ_r by lia. rewrite Z.pow_add_r by lia. lia.
  - rewrite Zdigits2_xO. replace (Z.pos (digits2_pos p) + 1 - 1) with (Z.succ (Z.pos (digits2_pos p) - 1)) by lia.
    rewrite Z.pow_succ_r by lia. rewrite Z.pow_add_r by lia. lia.
  - cbn. lia.
Qed.


Lemma canonical_exponent (m : positive) (e : Z) :
  bounded prec emax m e = true ->
  -1074 <= e /\ (-1074 < e -> Zpos (digits2_pos m) = 53).
Proof.
  intros Hb. apply andb_prop in Hb as [Hc _].
  unfold canonical_mantissa, fexp, SpecFloat.emin, prec, emax in Hc.
  apply Z.eqb_eq in Hc. lia.
Qed.

Lemma round_mul_one (s : bool) (m : positive) (e : Z) :
  bounded prec emax m e = true ->
  binary_round_aux prec emax s (Zpos (m * 4503599627370496)) (e + -52) loc_Exact
  = S754_finite s m e.
Proof.
  intros Hb. apply andb_prop in Hb as [Hc He].
  unfold canonical_mantissa in Hc. apply Z.eqb_eq in Hc.
  rewrite !Pos.mul_xO_r, Pos.mul_1_r.
  unfold binary_round_aux, shr_fexp at 1.
  unfold Zdigits2. rewrite !Zdigits2_xO.
  replace (fexp prec emax _) with e by (rewrite <- Hc at 1; f_equal; lia).
  replace (e - (e + -52))%Z with 52%Z by lia.
  unfold shr, shr_record_of_loc.
  match goal with |- context [SpecFloat.iter_pos shr_1 ?n ?r] =>
    change (SpecFloat.iter_pos shr_1 n r) with (Build_shr_record (Zpos m) false false)
  end.
  cbn [shr_m loc_of_shr_record round_nearest_even].
  unfold shr_fexp, Zdigits2.
  replace (e + -52 + 52)%Z with e by lia.
  rewrite Hc, Z.sub_diag. cbn [shr shr_record_of_loc shr_m].
  rewrite He. reflexivity.
Qed.

Local Close Scope Z_scope.
Local Open Scope float_scope.

(** Multiplying by 1 is exact. *)
Lemma mul_one_r (x : float) : x * 1 = x.
Proof.
  apply Prim2SF_inj. rewrite mul_spec.
  change (Prim2SF 1) with (S754_finite false 4503599627370496 (-52)).
  pose proof (Prim2SF_valid x) as Hv.
  destruct (Prim2SF x) as [s | s | | s m e]; cbn.
  - now destruct s.
  - now destruct s.
  - reflexivity.
  - unfold SF64mul, SFmul. rewrite round_mul_one by exact Hv. now destruct s.
Qed.


(** [NaN] absorbs multiplication. *)
Lemma mul_nan_l (x : float) : nan * x = nan.
Proof.
  apply Prim2SF_inj. rewrite mul_spec.
  change (Prim2SF nan) with S754_nan. reflexivity.
Qed.

End FloatFacts.

(** * Facts about canvas dimensions

    A dimension read as a number and assigned back is unchanged, and a
    number from 1 up to [2^32] is never converted to the dimension 0. *)

Section DimensionFacts.

Local Open Scope Z_scope.

Lemma dimension_eq (a b : dimension) : pixels a = pixels b -> a = b.
Proof.
  destruct a as [za Ha], b as [zb Hb]. cbn. intros <-. f_equal.
  apply UIP_dec. apply Bool.bool_dec.
Qed.

Lemma dimension_range (d : dimension) : 0 <= pixels d <= dimension_max.
Proof.
  pose proof (pixels_in_range d) as H. apply andb_prop in H as [H1 H2]. lia.
Qed.

Lemma dimension_of_in_range (default : dimension) (z : Z) :
  0 <= z <= dimension_max -> pixels (dimension_of default z) = z.
Proof.
  intros Hz. unfold dimension_of.
  destruct (Bool.bool_dec _ true) as [H | H]; [reflexivity |].
  exfalso. apply H. apply andb_true_intro. split; lia.
Qed.

Lemma dimension_of_out_of_range (default : dimension) (z : Z) :
  dimension_max < z -> dimension_of default z = default.
Proof.
  intros Hz. unfold dimension_of.
  destruct (Bool.bool_dec _ true) as [H | H]; [| reflexivity].
  exfalso. pose proof H as H'. apply andb_prop in H' as [_ H']. lia.
Qed.

(** A mantissa that is canonical for its exponent is not rounded. *)
Lemma binary_round_aux_canonical (s : bool) (m : positive) (e : Z) :
  bounded prec emax m e = true ->
  binary_round_aux prec emax s (Zpos m) e loc_Exact = S754_finite s m e.
Proof.
  intros Hb. apply andb_prop in Hb as [Hc He].
  unfold canonical_mantissa in Hc. apply Z.eqb_eq in Hc.
  unfold binary_round_aux, shr_fexp. cbn [Zdigits2 shr_record_of_loc].
  rewrite Hc, Z.sub_diag. cbn [shr shr_m loc_of_shr_record round_nearest_even Zdigits2].
  rewrite Hc, Z.sub_diag. cbn [shr shr_m]. now rewrite He.
Qed.

Lemma iter_xO_digits (p k : positive) :
  Zpos (digits2_pos (Pos.iter xO p k)) = Zpos (digits2_pos p) + Zpos k.
Proof.
  induction k as [| k IH] using Pos.peano_ind.
  - cbn [Pos.iter]. apply Zdigits2_xO.
  - rewrite Pos.iter_succ, Zdigits2_xO, IH. lia.
Qed.

Lemma iter_xO_value (p k : positive) :
  Zpos (Pos.iter xO p k) = Zpos p * 2 ^ Zpos k.
Proof.
  induction k as [| k IH] using Pos.peano_ind.
  - cbn [Pos.iter]. lia.
  - rewrite Pos.iter_succ, Pos2Z.inj_xO, IH, Pos2Z.inj_succ, Z.pow_succ_r by lia. lia.
Qed.

(** The integer part of a number made from an integer below [2^53]. *)
Lemma binary_normalize_integer (p : positive) :
  Zpos p < 2 ^ 53 ->
  exists m e,
    binary_normalize prec emax (Zpos p) 0 false = S754_finite false m e
    /\ Z.shiftl (Zpos m) e = Zpos p.
Proof.
  intros Hp. cbn [binary_normalize]. unfold binary_round, shl_align.
  pose proof (digits2_pos_bounds p) as [Hlow _].
  assert (Hd : Zpos (digits2_pos p) <= 53).
  { destruct (Z.le_gt_cases (Zpos (digits2_pos p)) 53) as [H | H]; [exact H |].
    assert (2 ^ 53 <= 2 ^ (Zpos (digits2_pos p) - 1)) by (apply Z.pow_le_mono_r; lia).
    lia. }
  assert (Hf : fexp prec emax (Zpos (digits2_pos p) + 0) = Zpos (digits2_pos p) - 53).
  { unfold fexp, SpecFloat.emin, prec, emax. lia. }
  rewrite Hf.
  destruct (Zpos (digits2_pos p) - 53 - 0) as [| k | k] eqn:Hk; try lia.
  - exists p, 0. split; [| apply Z.shiftl_0_r].
    apply binary_round_aux_canonical. unfold bounded, canonical_mantissa.
    rewrite Hf. apply andb_true_intro. split; [apply Z.eqb_eq; lia |].
    unfold prec, emax. apply Z.leb_le. lia.
  - exists (Pos.iter xO p k), (Zpos (digits2_pos p) - 53). split.
    + apply binary_round_aux_canonical. unfold bounded, canonical_mantissa.
      rewrite iter_xO_digits. apply andb_true_intro. split.
      * apply Z.eqb_eq. unfold fexp, SpecFloat.emin, prec, emax. lia.
      * unfold prec, emax. apply Z.leb_le. lia.
    + rewrite Z.shiftl_div_pow2 by lia. rewrite iter_xO_value.
      replace (- (Zpos (digits2_pos p) - 53)) with (Zpos k) by lia.
      apply Z.div_mul. apply Z.pow_nonzero; lia.
Qed.

Lemma integer_part_of_dimension (d : dimension) :
  integer_part (Number_of_dimension d) = pixels d.
Proof.
  pose proof (dimension_range d) as Hr. unfold dimension_max in Hr.
  unfold integer_part, Number_of_dimension. rewrite of_uint63_spec.
  rewrite Uint63.of_Z_spec.
  change Uint63Axioms.wB with 9223372036854775808. rewrite Z.mod_small by lia.
  destruct (pixels d) as [| p | p] eqn:Hp; [reflexivity | | lia].
  destruct (binary_normalize_integer p) as (m & e & Hn & Hs); [lia |].
  now rewrite Hn.
Qed.

(** Reading a dimension and assigning it back changes nothing. *)
Lemma set_dimension_of_dimension (default d : dimension) :
  set_dimension default (Number_of_dimension d) = d.
Proof.
  pose proof (dimension_range d) as Hr. unfold dimension_max in Hr.
  apply dimension_eq. unfold set_dimension, ToUint32.
  rewrite integer_part_of_dimension, Z.mod_small by lia.
  apply dimension_of_in_range. unfold dimension_max. lia.
Qed.

(** A number from 1 up to, but not including, [2^32] has its integer
    part in the same range. *)
Lemma integer_part_bounds (x : float) :
  (1 <=? x)%float = true -> (x <? 4294967296)%float = true ->
  1 <= integer_part x < 4294967296.
Proof.
  rewrite leb_spec, ltb_spec. unfold integer_part.
  change (Prim2SF 1) with (S754_finite false 4503599627370496 (-52)).
  change (Prim2SF 4294967296) with (S754_finite false 4503599627370496 (-20)).
  pose proof (Prim2SF_valid x) as Hv.
  destruct (Prim2SF x) as [s | s | | s m e]; try discriminate;
    try (destruct s; discriminate).
  destruct s; [discriminate |]. cbn [valid_binary] in Hv.
  destruct (canonical_exponent m e Hv) as [_ Hd].
  pose proof (digits2_pos_bounds m) as [Hlow Hhigh].
  unfold SFleb, SFltb, SFcompare. intros Hge Hlt.
  assert (He : -52 <= e <= -20).
  { destruct (Z.compare_spec (-52) e); try discriminate;
      destruct (Z.compare_spec e (-20)); try discriminate; lia. }
  rewrite Hd in Hlow, Hhigh by lia.
  change (2 ^ (53 - 1)) with 4503599627370496 in Hlow.
  change (2 ^ 53) with 9007199254740992 in Hhigh.
  assert (He' : e <= -21).
  { destruct (Z.compare_spec e (-20)) as [Heq | |]; try discriminate; [| lia].
    exfalso. revert Hlt. rewrite Pos.compare_cont_spec.
    destruct (Pos.compare_spec m 4503599627370496) as [Hc | Hc | Hc]; cbn [Pos.switch_Eq].
    - intros Hx. discriminate Hx.
    - intros _. apply Pos2Z.pos_lt_pos in Hc.
      lia.
    - intros Hx. discriminate Hx. }
  rewrite Z.shiftl_div_pow2 by lia.
  assert (Hp : 0 < 2 ^ (- e)) by (apply Z.pow_pos_nonneg; lia).
  assert (Hp1 : 2 ^ (- e) <= 4503599627370496).
  { change 4503599627370496 with (2 ^ 52). apply Z.pow_le_mono_r; lia. }
  assert (Hp2 : 9007199254740992 <= 2 ^ (- e) * 4294967296).
  { change 4294967296 with (2 ^ 32). rewrite <- Z.pow_add_r by lia.
    change 9007199254740992 with (2 ^ 53). apply Z.pow_le_mono_r; lia. }
  split.
  - apply Z.div_le_lower_bound; lia.
  - apply Z.div_lt_upper_bound; lia.
Qed.

(** Assigning a number from 1 up to [2^32] gives a positive dimension:
    its integer part, or the default when that is too large. *)
Lemma set_dimension_positive (default : dimension) (x : float) :
  0 < pixels default ->
  (1 <=? x)%float = true -> (x <? 4294967296)%float = true ->
  0 < pixels (set_dimension default x).
Proof.
  intros Hdef Hge Hlt. destruct (integer_part_bounds x Hge Hlt) as [H1 H2].
  unfold set_dimension, ToUint32. rewrite Z.mod_small by lia.
  destruct (Z.le_gt_cases (integer_part x) dimension_max) as [Hin | Hout].
  - rewrite dimension_of_in_range by lia. lia.
  - rewrite dimension_of_out_of_range by lia. exact Hdef.
Qed.

End DimensionFacts.

(** * Properties of the script *)

Section Properties.
Context `{!Wasm, !Engine}.

Local Open Scope float_scope.

(** ** Running monadic code *)

Lemma bind_Ok {A B : Type} (m : M A) (k : A -> M B) (st st' : State) (a : A) :
  m st = Ok a st' -> (m ≫= k) st = k a st'.
Proof. intros Hm. unfold mbind, M_bind. now rewrite Hm. Qed.

Lemma bind_Throw {A B : Type} (m : M A) (k : A -> M B) (st st' : State) (e : Fault) :
  m st = Throw e st' -> (m ≫= k) st = Throw e st'.
Proof. intros Hm. unfold mbind, M_bind. now rewrite Hm. Qed.

(** States are kept in the form [mkState ...] after every step, so that
    the terms stay small. *)
Ltac simpl_state :=
  unfold with_document, with_contexts, with_simulation, with_heap, with_frames,
    with_trace in *;
  cbn [document contexts devicePixelRatio simulation heap frames trace] in *.

Ltac norm_state :=
  unfold with_document, with_contexts, with_simulation, with_heap, with_frames,
    with_trace;
  cbn [document contexts devicePixelRatio simulation heap frames trace].

Ltac step_with tac := erewrite bind_Ok by tac; norm_state.

Lemma builtin_ok (c : Call) (this : string) (st : State) (cx : Context2D) :
  contexts st !! this = Some cx ->
  builtin c this st = Ok tt (with_trace (trace st ++ [Canvas this c]) st).
Proof. intros Hc. unfold builtin. now rewrite Hc. Qed.

Lemma set_fillStyle_ok (v this : string) (st : State) (cx : Context2D) :
  contexts st !! this = Some cx ->
  set_fillStyle v this st
  = Ok tt (with_contexts (<[this := mkContext2D v (strokeStyle cx)]> (contexts st)) st).
Proof. intros Hc. unfold set_fillStyle. now rewrite Hc. Qed.

Ltac ctx_present :=
  norm_state; first [ rewrite lookup_insert_eq; reflexivity | eassumption ].

Ltac run_builtin :=
  step_with ltac:(first [ eapply builtin_ok | eapply set_fillStyle_ok ]; ctx_present).

Lemma drawTriangle_ok (x y size rotation : float) (this : string) (st : State)
    (cx : Context2D) :
  contexts st !! this = Some cx ->
  drawTriangle x y size rotation this st
  = Ok tt (painted this "rgb(255, 255, 255)" (triangle_path x y size rotation) cx st).
Proof.
  intros Hc.
  unfold drawTriangle, beginPath, moveTo, lineTo, stroke, fill.
  do 7 run_builtin.
  erewrite builtin_ok by ctx_present.
  unfold painted, triangle_path. norm_state. cbn [map].
  rewrite <- !app_assoc. reflexivity.
Qed.

Lemma drawCircle_ok (x y radius : float) (this : string) (st : State)
    (cx : Context2D) :
  contexts st !! this = Some cx ->
  drawCircle x y radius this st
  = Ok tt (painted this "rgb(0, 255, 128)" (circle_path x y radius) cx st).
Proof.
  intros Hc.
  unfold drawCircle, beginPath, arc, fill.
  do 3 run_builtin.
  erewrite builtin_ok by ctx_present.
  unfold painted, circle_path. norm_state. cbn [map].
  rewrite <- !app_assoc. reflexivity.
Qed.

(** ** The loops of [redraw] *)

Lemma fill_with_lookup (color : string) (n : nat) (this : string)
    (cx : Context2D) (cs : gmap string Context2D) :
  cs !! this = Some cx ->
  exists cx', fill_with color n this cx cs !! this = Some cx'
              /\ strokeStyle cx' = strokeStyle cx.
Proof.
  intros Hc. destruct n as [| n]; cbn [fill_with].
  - now exists cx.
  - eexists. split; [apply lookup_insert_eq | reflexivity].
Qed.

Lemma for_of_paint (this color : string) (calls : JsObject -> list Call)
    (body : nat -> M unit) :
  (forall loc o st cx,
      heap st !! loc = Some o -> contexts st !! this = Some cx ->
      body loc st = Ok tt (painted this color (calls o) cx st)) ->
  forall (os : list JsObject) (base : nat) (st : State) (cx : Context2D),
    contexts st !! this = Some cx ->
    (forall i o, os !! i = Some o -> heap st !! (base + i)%nat = Some o) ->
    for_of (seq base (length os)) body st
    = Ok tt (loop_post this color calls os cx st).
Proof.
  intros Hbody os. induction os as [| o os IH]; intros base st cx Hc Hh.
  - cbn [length seq for_of]. unfold mret, M_ret, loop_post.
    cbn [flat_map map length fill_with]. rewrite app_nil_r. now destruct st.
  - cbn [length seq for_of].
    erewrite bind_Ok; cycle 1.
    { apply Hbody with (o := o) (cx := cx); [| exact Hc].
      rewrite <- (Nat.add_0_r base). now apply Hh. }
    erewrite IH with (cx := mkContext2D color (strokeStyle cx)); cycle 1.
    { unfold painted. simpl_state. apply lookup_insert_eq. }
    { intros i o' Ho'. unfold painted. simpl_state.
      replace (S base + i)%nat with (base + S i)%nat by lia. now apply Hh. }
    unfold loop_post, painted. simpl_state. cbn [flat_map fill_with strokeStyle].
    rewrite map_app, <- app_assoc. f_equal. f_equal.
    destruct os; cbn [length fill_with]; [reflexivity | apply insert_insert_eq].
Qed.

Lemma get_ok (loc : nat) (field : string) (o : JsObject) (st : State) :
  heap st !! loc = Some o -> get loc field st = Ok (o !! field) st.
Proof. intros Hl. unfold get. now rewrite Hl. Qed.

Lemma simulation_world_ok (st : State) :
  simulation_world st
  = Ok (mkSnapshot
          (seq (length (heap st))
               (length (w_foods (Simulation_world (simulation st)).1)))
          (seq (length (heap st)
                + length (w_foods (Simulation_world (simulation st)).1))%nat
               (length (w_animals (Simulation_world (simulation st)).1))))
       (with_trace (trace st ++ [SimWorld])
          (with_heap (heap st ++ w_foods (Simulation_world (simulation st)).1
                              ++ w_animals (Simulation_world (simulation st)).1)
             (with_simulation (Simulation_world (simulation st)).2 st))).
Proof.
  unfold simulation_world. now destruct (Simulation_world (simulation st)).
Qed.

Lemma redraw_ok (this : string) (w h : float) (cx : Context2D) (st : State) :
  contexts st !! this = Some cx ->
  redraw (Some this) w h st = Ok tt (redraw_post this w h cx st).
Proof.
  intros Hc. unfold redraw, clearRect. cbn [invoke].
  step_with ltac:(eapply builtin_ok; eassumption).
  step_with ltac:(reflexivity).
  step_with ltac:(apply simulation_world_ok).
  simpl_state. cbn [foods animals].
  erewrite bind_Ok; cycle 1.
  { apply for_of_paint
      with (color := "rgb(0, 255, 128)"%string) (calls := food_calls w h) (cx := cx).
    - intros loc o st' cx' Hl Hc'. cbv beta.
      step_with ltac:(eapply get_ok; eassumption).
      step_with ltac:(eapply get_ok; eassumption).
      eapply drawCircle_ok; eassumption.
    - exact Hc.
    - intros i o Ho. simpl_state.
      rewrite lookup_app_r by lia.
      replace (length (heap st) + i - length (heap st))%nat with i by lia.
      now apply lookup_app_l_Some. }
  step_with ltac:(apply simulation_world_ok).
  unfold loop_post. simpl_state. cbn [foods animals].
  destruct (fill_with_lookup "rgb(0, 255, 128)"
              (length (w_foods (Simulation_world (Simulation_step (simulation st))).1))
              this cx (contexts st) Hc) as (cx1 & Hc1 & Hs1).
  erewrite bind_Ok; cycle 1.
  { apply for_of_paint
      with (color := "rgb(255, 255, 255)"%string) (calls := animal_calls w h) (cx := cx1).
    - intros loc o st' cx' Hl Hc'. cbv beta.
      step_with ltac:(eapply get_ok; eassumption).
      step_with ltac:(eapply get_ok; eassumption).
      step_with ltac:(eapply get_ok; eassumption).
      eapply drawTriangle_ok; eassumption.
    - exact Hc1.
    - intros i o Ho. simpl_state.
      rewrite lookup_app_r by (rewrite !length_app; lia).
      rewrite lookup_app_r by (rewrite !length_app; lia).
      match goal with |- _ !! ?k = _ => replace k with i by (rewrite !length_app; lia) end.
      exact Ho. }
  unfold requestAnimationFrame, loop_post, redraw_post. simpl_state.
  f_equal. f_equal.
  - destruct (length (w_animals _)); cbn [fill_with]; [reflexivity | now rewrite Hs1].
  - now rewrite <- !app_assoc.
  - rewrite <- !app_assoc. reflexivity.
Qed.

(** ** The set-up step *)

Lemma getElementById_ok (id : string) (e : Element) (st : State) :
  document st !! id = Some e -> getElementById id st = Ok (Some id) st.
Proof. intros He. unfold getElementById. now rewrite He. Qed.

Lemma getElementById_null (id : string) (st : State) :
  document st !! id = None -> getElementById id st = Ok None st.
Proof. intros He. unfold getElementById. now rewrite He. Qed.

Lemma get_property_ok {A : Type} (id : string) (prop : Element -> A) (e : Element)
    (st : State) :
  document st !! id = Some e -> get_property (Some id) prop st = Ok (prop e) st.
Proof. intros He. unfold get_property. cbn [invoke]. now rewrite He. Qed.

Lemma set_property_ok (id : string) (upd : Element -> Element) (e : Element)
    (st : State) :
  document st !! id = Some e ->
  set_property (Some id) upd st
  = Ok tt (with_document (<[id := upd e]> (document st)) st).
Proof. intros He. unfold set_property. now rewrite He. Qed.

Lemma getContext_ok (id : string) (cx : Context2D) (st : State) :
  contexts st !! id = Some cx -> getContext (Some id) st = Ok (Some id) st.
Proof. intros Hc. unfold getContext. cbn [invoke]. now rewrite Hc. Qed.

Lemma getContext_null (id : string) (st : State) :
  contexts st !! id = None -> getContext (Some id) st = Ok None st.
Proof. intros Hc. unfold getContext. cbn [invoke]. now rewrite Hc. Qed.

Ltac elem_present :=
  norm_state;
  first [ rewrite lookup_insert_eq; reflexivity
        | rewrite lookup_insert_ne by discriminate; eassumption
        | eassumption ].

Ltac run_elem :=
  step_with ltac:(first [ eapply getElementById_ok | eapply get_property_ok
                        | eapply set_property_ok ]; elem_present).

Lemma setup_ok (b v : Element) (cx : Context2D) (st : State) :
  document st !! "train" = Some b ->
  document st !! "viewport" = Some v ->
  contexts st !! "viewport" = Some cx ->
  setup st = Ok (Some "viewport", width v, height v) (setup_post b v st).
Proof.
  intros Hb Hv Hc. unfold setup.
  step_with ltac:(reflexivity).
  do 2 run_elem.
  step_with ltac:(apply simulation_world_ok).
  run_elem.
  step_with ltac:(eapply getContext_ok; norm_state; eassumption).
  do 2 run_elem.
  step_with ltac:(reflexivity).
  do 4 run_elem.
  cbn [invoke]. unfold scale.
  step_with ltac:(eapply builtin_ok; norm_state; eassumption).
  unfold mret, M_ret, setup_post, resized, new_Simulation. simpl_state.
  cbn [set_width set_height set_style_width set_style_height onclick width
       height style_width style_height].
  rewrite !insert_insert_eq, <- !app_assoc. reflexivity.
Qed.

Lemma main_ok (b v : Element) (cx : Context2D) (st : State) :
  document st !! "train" = Some b ->
  document st !! "viewport" = Some v ->
  contexts st !! "viewport" = Some cx ->
  main st
  = Ok tt (redraw_post "viewport" (width v) (height v) cx (setup_post b v st)).
Proof.
  intros Hb Hv Hc. unfold main.
  step_with ltac:(eapply setup_ok; eassumption).
  eapply redraw_ok; eassumption.
Qed.

(** ** The drawing helpers *)

(** C3: [drawTriangle] traces a path whose first vertex, reached by
    [moveTo], is the one at angle [rotation], at 1.5 times [size] from
    [(x, y)], and whose second and third vertices, reached by [lineTo],
    are the ones at angles [rotation + 2/3 pi] and [rotation + 4/3 pi],
    at [size] from [(x, y)], each placed by [sin] and [cos] as the
    source writes them; a last [lineTo] returns to the first vertex, and
    the path is stroked and filled. *)
Theorem drawTriangle_vertices (x y size rotation : float) (this : string)
    (st : State) (cx : Context2D) :
  contexts st !! this = Some cx ->
  exists st',
    drawTriangle x y size rotation this st = Ok tt st'
    /\ trace st' = trace st
         ++ map (Canvas this)
              [ BeginPath;
                MoveTo (x - Math_sin rotation * size * 1.5)
                       (y + Math_cos rotation * size * 1.5);
                LineTo (x - Math_sin (rotation + 2.0 / 3.0 * Math.PI) * size)
                       (y + Math_cos (rotation + 2.0 / 3.0 * Math.PI) * size);
                LineTo (x - Math_sin (rotation + 4.0 / 3.0 * Math.PI) * size)
                       (y + Math_cos (rotation + 4.0 / 3.0 * Math.PI) * size);
                LineTo (x - Math_sin rotation * size * 1.5)
                       (y + Math_cos rotation * size * 1.5);
                Stroke;
                Fill ].
Proof.
  intros Hc. eexists.
  split; [eapply drawTriangle_ok; eassumption | reflexivity].
Qed.

(** C9: the path traced by [drawTriangle] is closed: the last [lineTo]
    goes to the very point of the initial [moveTo], and only [lineTo]s
    lie between the two. *)
Theorem drawTriangle_path_closed (x y size rotation : float) (this : string)
    (st : State) (cx : Context2D) :
  contexts st !! this = Some cx ->
  exists st' p inner,
    drawTriangle x y size rotation this st = Ok tt st'
    /\ trace st' = trace st
         ++ map (Canvas this)
              (BeginPath :: MoveTo p.1 p.2 :: inner ++ [LineTo p.1 p.2; Stroke; Fill])
    /\ Forall (fun c => exists px py, c = LineTo px py) inner.
Proof.
  intros Hc. eexists.
  exists (x - Math_sin rotation * size * 1.5, y + Math_cos rotation * size * 1.5).
  exists [ LineTo (x - Math_sin (rotation + 2.0 / 3.0 * Math.PI) * size)
                  (y + Math_cos (rotation + 2.0 / 3.0 * Math.PI) * size);
           LineTo (x - Math_sin (rotation + 4.0 / 3.0 * Math.PI) * size)
                  (y + Math_cos (rotation + 4.0 / 3.0 * Math.PI) * size) ].
  split; [eapply drawTriangle_ok; eassumption |].
  split; [reflexivity |]. repeat constructor; eauto.
Qed.

(** C10: whatever the fill colour was, after [drawTriangle] it is white
    and after [drawCircle] it is green. *)
Theorem helpers_set_fillStyle (x y size rotation radius : float) (this : string)
    (st : State) (cx : Context2D) :
  contexts st !! this = Some cx ->
  (exists st' cx',
      drawTriangle x y size rotation this st = Ok tt st'
      /\ contexts st' !! this = Some cx'
      /\ fillStyle cx' = "rgb(255, 255, 255)"%string)
  /\ (exists st' cx',
      drawCircle x y radius this st = Ok tt st'
      /\ contexts st' !! this = Some cx'
      /\ fillStyle cx' = "rgb(0, 255, 128)"%string).
Proof.
  intros Hc. split; eexists; eexists.
  - split; [eapply drawTriangle_ok; eassumption |].
    split; [apply lookup_insert_eq | reflexivity].
  - split; [eapply drawCircle_ok; eassumption |].
    split; [apply lookup_insert_eq | reflexivity].
Qed.

(** C5, amended: the helpers keep no state of their own, but they are not
    without effect on the context: a call appends the calls of its path
    to the trace and sets [fillStyle] of [this] to the colour of the
    helper; the stroke colour, every other context, the document, the
    simulation, the heap and the frame queue stay as they were. *)
Theorem helpers_change_only_fillStyle (x y size rotation radius : float)
    (this : string) (st : State) (cx : Context2D) :
  contexts st !! this = Some cx ->
  (exists st',
      drawTriangle x y size rotation this st = Ok tt st'
      /\ trace st' = trace st ++ map (Canvas this) (triangle_path x y size rotation)
      /\ contexts st' = <[this := mkContext2D "rgb(255, 255, 255)" (strokeStyle cx)]> (contexts st)
      /\ (forall other, other <> this -> contexts st' !! other = contexts st !! other)
      /\ document st' = document st
      /\ devicePixelRatio st' = devicePixelRatio st
      /\ simulation st' = simulation st
      /\ heap st' = heap st
      /\ frames st' = frames st)
  /\ (exists st',
      drawCircle x y radius this st = Ok tt st'
      /\ trace st' = trace st ++ map (Canvas this) (circle_path x y radius)
      /\ contexts st' = <[this := mkContext2D "rgb(0, 255, 128)" (strokeStyle cx)]> (contexts st)
      /\ (forall other, other <> this -> contexts st' !! other = contexts st !! other)
      /\ document st' = document st
      /\ devicePixelRatio st' = devicePixelRatio st
      /\ simulation st' = simulation st
      /\ heap st' = heap st
      /\ frames st' = frames st).
Proof.
  intros Hc. split; eexists.
  - split; [eapply drawTriangle_ok; eassumption |].
    unfold painted. simpl_state. repeat split; try reflexivity.
    intros other Hne. now apply lookup_insert_ne.
  - split; [eapply drawCircle_ok; eassumption |].
    unfold painted. simpl_state. repeat split; try reflexivity.
    intros other Hne. now apply lookup_insert_ne.
Qed.

(** ** The set-up step on a page that misses an object *)

Lemma setup_without_train (st : State) :
  document st !! "train" = None ->
  exists st', setup st = Throw (TypeError "Cannot set properties of null") st'
              /\ frames st' = frames st.
Proof.
  intros Hb. eexists. unfold setup. split.
  - step_with ltac:(reflexivity).
    step_with ltac:(apply getElementById_null; norm_state; eassumption).
    erewrite bind_Throw by reflexivity. reflexivity.
  - reflexivity.
Qed.

Lemma setup_without_viewport (b : Element) (st : State) :
  document st !! "train" = Some b ->
  document st !! "viewport" = None ->
  exists st', setup st = Throw (TypeError "Cannot read properties of null") st'
              /\ frames st' = frames st.
Proof.
  intros Hb Hv. eexists. unfold setup. split.
  - step_with ltac:(reflexivity).
    do 2 run_elem.
    step_with ltac:(apply simulation_world_ok).
    step_with ltac:(apply getElementById_null; norm_state;
          rewrite lookup_insert_ne by discriminate; eassumption).
    erewrite bind_Throw by reflexivity. reflexivity.
  - reflexivity.
Qed.

Lemma setup_without_context (b v : Element) (st : State) :
  document st !! "train" = Some b ->
  document st !! "viewport" = Some v ->
  contexts st !! "viewport" = None ->
  exists st', setup st = Throw (TypeError "Cannot read properties of null") st'
              /\ frames st' = frames st
              /\ document st' !! "viewport" = Some (resized (devicePixelRatio st) v).
Proof.
  intros Hb Hv Hc. eexists. unfold setup. split.
  - step_with ltac:(reflexivity).
    do 2 run_elem.
    step_with ltac:(apply simulation_world_ok).
    run_elem.
    step_with ltac:(eapply getContext_null; norm_state; eassumption).
    do 2 run_elem.
    step_with ltac:(reflexivity).
    do 4 run_elem.
    erewrite bind_Throw by reflexivity. reflexivity.
  - split; [reflexivity |]. simpl_state. apply lookup_insert_eq.
Qed.

(** C6: nothing in the script catches or defaults a missing DOM element
    or a missing 2D context: the script ends in an uncaught [TypeError],
    and no frame has been requested. *)
Theorem missing_object_faults (st : State) :
  document st !! "train" = None
  \/ document st !! "viewport" = None
  \/ contexts st !! "viewport" = None ->
  exists msg st',
    main st = Throw (TypeError msg) st' /\ frames st' = frames st.
Proof.
  intros Hmiss. unfold main.
  destruct (document st !! "train") as [b |] eqn:Hb.
  - destruct (document st !! "viewport") as [v |] eqn:Hv.
    + destruct (contexts st !! "viewport") as [cx |] eqn:Hc.
      * destruct Hmiss as [? | [? | ?]]; discriminate.
      * destruct (setup_without_context b v st Hb Hv Hc) as (st' & Hs & Hf & _).
        eexists. exists st'. split; [apply bind_Throw; exact Hs | exact Hf].
    + destruct (setup_without_viewport b st Hb Hv) as (st' & Hs & Hf).
      eexists. exists st'. split; [apply bind_Throw; exact Hs | exact Hf].
  - destruct (setup_without_train st Hb) as (st' & Hs & Hf).
    eexists. exists st'. split; [apply bind_Throw; exact Hs | exact Hf].
Qed.

(** C1, amended: after the set-up step the buffer of the viewport canvas
    measures the initial width and height times [viewportScale],
    converted to a canvas dimension: the integer part of the product
    (or the default when that is out of range).  It is the product itself
    whenever the product is a whole number of pixels that a canvas can
    hold.  The CSS size of the element is the initial width and height
    in pixels. *)
Theorem setup_sizes_viewport (b v : Element) (cx : Context2D) (st : State) :
  document st !! "train" = Some b ->
  document st !! "viewport" = Some v ->
  contexts st !! "viewport" = Some cx ->
  let viewportScale := js_or (devicePixelRatio st) 1 in
  exists ctxt st' v',
    setup st = Ok (ctxt, width v, height v) st'
    /\ document st' !! "viewport" = Some v'
    /\ width v' = set_dimension default_width (width v * viewportScale)
    /\ height v' = set_dimension default_height (height v * viewportScale)
    /\ (forall n : dimension, width v * viewportScale = n -> width v' = n)
    /\ (forall n : dimension, height v * viewportScale = n -> height v' = n)
    /\ style_width v' = (Number_toString (width v) +:+ "px")%string
    /\ style_height v' = (Number_toString (height v) +:+ "px")%string.
Proof.
  intros Hb Hv Hc viewportScale. eexists. eexists. eexists.
  split; [eapply setup_ok; eassumption |].
  split; [apply lookup_insert_eq |].
  cbn [resized width height style_width style_height]. fold viewportScale.
  split; [reflexivity |]. split; [reflexivity |].
  split; [intros n ->; apply set_dimension_of_dimension |].
  split; [intros n ->; apply set_dimension_of_dimension |].
  split; reflexivity.
Qed.

(** ** One frame *)

Lemma no_step_in_canvas_calls (this : string) (cs : list Call) :
  List.filter is_SimStep (map (Canvas this) cs) = [].
Proof. induction cs as [| c cs IH]; [reflexivity | exact IH]. Qed.

(** C2: one call of [redraw] clears the whole viewport, steps the
    simulation once, draws a circle for every food of the world and then
    a triangle for every animal of the world, in that order, and then
    asks for the next frame. *)
Theorem redraw_draws_in_order (this : string) (w h : float) (cx : Context2D)
    (st : State) :
  contexts st !! this = Some cx ->
  let stepped := Simulation_step (simulation st) in
  let foods1 := w_foods (Simulation_world stepped).1 in
  let animals2 := w_animals (Simulation_world (Simulation_world stepped).2).1 in
  exists st' events,
    redraw (Some this) w h st = Ok tt st'
    /\ trace st' = trace st ++ events
    /\ events =
         [Canvas this (ClearRect 0 0 w h); SimStep; SimWorld]
         ++ map (Canvas this)
              (flat_map (fun food =>
                 circle_path (ToNumber (food !! "x") * w)
                             (ToNumber (food !! "y") * h)
                             ((0.01 / 2.0) * w)) foods1)
         ++ [SimWorld]
         ++ map (Canvas this)
              (flat_map (fun animal =>
                 triangle_path (ToNumber (animal !! "x") * w)
                               (ToNumber (animal !! "y") * h)
                               (0.01 * w)
                               (ToNumber (animal !! "rotation"))) animals2)
         ++ [RequestAnimationFrame (Redraw (Some this) w h)]
    /\ length (List.filter is_SimStep events) = 1%nat.
Proof.
  intros Hc stepped foods1 animals2. eexists. eexists.
  split; [eapply redraw_ok; eassumption |].
  split; [reflexivity |]. split; [reflexivity |].
  rewrite !List.filter_app, !no_step_in_canvas_calls. reflexivity.
Qed.

(** ** What [redraw] reads *)

Lemma flat_map_Forall2 {A B : Type} (R : A -> A -> Prop) (f : A -> list B)
    (l l' : list A) :
  (forall a a', R a a' -> f a = f a') ->
  Forall2 R l l' -> flat_map f l = flat_map f l'.
Proof.
  intros Hf HR. induction HR as [| a a' l l' Ha _ IH]; [reflexivity |].
  cbn [flat_map]. now rewrite (Hf a a' Ha), IH.
Qed.

Lemma food_calls_same (w h : float) (o o' : JsObject) :
  same_food o o' -> food_calls w h o = food_calls w h o'.
Proof. intros [Hx Hy]. unfold food_calls. now rewrite Hx, Hy. Qed.

Lemma animal_calls_same (w h : float) (o o' : JsObject) :
  same_animal o o' -> animal_calls w h o = animal_calls w h o'.
Proof. intros (Hx & Hy & Hr). unfold animal_calls. now rewrite Hx, Hy, Hr. Qed.

(** C7: [redraw] reads [x] and [y] of a food and [x], [y] and [rotation]
    of an animal and nothing else of a snapshot: two worlds that agree on
    these fields are drawn alike.  It writes to no snapshot: the heap
    after the call is the heap before it followed by the snapshot objects
    exactly as the simulation handed them out. *)
Theorem redraw_only_reads_snapshots (this : string) (w h : float)
    (cx : Context2D) (st1 st2 : State) :
  let world1 st := (Simulation_world (Simulation_step (simulation st))).1 in
  let world2 st :=
    (Simulation_world (Simulation_world (Simulation_step (simulation st))).2).1 in
  contexts st1 !! this = Some cx ->
  contexts st2 = contexts st1 ->
  frames st2 = frames st1 ->
  trace st2 = trace st1 ->
  Forall2 same_food (w_foods (world1 st1)) (w_foods (world1 st2)) ->
  Forall2 same_animal (w_animals (world2 st1)) (w_animals (world2 st2)) ->
  exists st1' st2',
    redraw (Some this) w h st1 = Ok tt st1'
    /\ redraw (Some this) w h st2 = Ok tt st2'
    /\ trace st1' = trace st2'
    /\ contexts st1' = contexts st2'
    /\ frames st1' = frames st2'
    /\ heap st1' = heap st1
                   ++ (w_foods (world1 st1) ++ w_animals (world1 st1))
                   ++ (w_foods (world2 st1) ++ w_animals (world2 st1)).
Proof.
  intros world1 world2 Hc Hcs Hfr Htr Hfoods Hanimals.
  assert (Hc2 : contexts st2 !! this = Some cx) by now rewrite Hcs.
  eexists. eexists.
  split; [eapply redraw_ok; eassumption |].
  split; [eapply redraw_ok; eassumption |].
  unfold redraw_post. simpl_state.
  fold (world1 st1) (world1 st2) (world2 st1) (world2 st2).
  rewrite Hcs, Hfr, Htr.
  rewrite (flat_map_Forall2 same_food (food_calls w h) _ _
             (food_calls_same w h) Hfoods).
  rewrite (flat_map_Forall2 same_animal (animal_calls w h) _ _
             (animal_calls_same w h) Hanimals).
  rewrite (Forall2_length _ _ _ Hfoods), (Forall2_length _ _ _ Hanimals).
  repeat split; reflexivity.
Qed.

(** ** The render loop *)

Lemma redraw_Ok_inv (ctxt : option string) (w h : float) (st st' : State) :
  redraw ctxt w h st = Ok tt st' ->
  exists this cx,
    ctxt = Some this /\ contexts st !! this = Some cx
    /\ st' = redraw_post this w h cx st.
Proof.
  intros Hr. destruct ctxt as [this |].
  - destruct (contexts st !! this) as [cx |] eqn:Hc.
    + rewrite (redraw_ok this w h cx st Hc) in Hr.
      exists this, cx. split; [reflexivity |]. split; [exact Hc | congruence].
    + unfold redraw, clearRect in Hr. cbn [invoke] in Hr.
      erewrite bind_Throw in Hr; [discriminate |].
      unfold builtin. now rewrite Hc.
  - unfold redraw in Hr. cbn [invoke] in Hr.
    erewrite bind_Throw in Hr by reflexivity. discriminate.
Qed.

Lemma redraw_post_looping (this : string) (w h : float) (cx : Context2D)
    (st : State) :
  frames st = [] -> contexts st !! this = Some cx ->
  looping (redraw_post this w h cx st).
Proof.
  intros Hf Hc.
  destruct (fill_with_lookup "rgb(0, 255, 128)"
              (length (w_foods (Simulation_world (Simulation_step (simulation st))).1))
              this cx (contexts st) Hc) as (cx1 & Hc1 & Hs1).
  destruct (fill_with_lookup "rgb(255, 255, 255)"
              (length (w_animals (Simulation_world (Simulation_world
                         (Simulation_step (simulation st))).2).1))
              this cx1 _ Hc1) as (cx2 & Hc2 & Hs2).
  exists this, w, h, cx2. unfold redraw_post. simpl_state. split.
  - now rewrite Hf.
  - rewrite <- Hc2. destruct (length (w_animals _)); cbn [fill_with];
      [reflexivity | now rewrite Hs1].
Qed.

Lemma looping_preserved (st st' : State) :
  looping st -> frame_step st st' -> looping st'.
Proof.
  intros (this & w & h & cx & Hf & Hc) Hstep.
  destruct Hstep as [st cb rest st' Hq Hrun].
  rewrite Hf in Hq. injection Hq as <- <-. cbn [run_callback] in Hrun.
  rewrite (redraw_ok this w h cx) in Hrun by exact Hc.
  injection Hrun as <-. now apply redraw_post_looping.
Qed.

Lemma looping_progress (st : State) :
  looping st -> exists st', frame_step st st'.
Proof.
  intros (this & w & h & cx & Hf & Hc).
  eexists. eapply frame_fires; [exact Hf |].
  cbn [run_callback]. eapply redraw_ok; eassumption.
Qed.

Lemma looping_invariant (st st' : State) :
  rtc frame_step st st' -> looping st -> looping st'.
Proof.
  intros Hsteps. induction Hsteps as [st | st st1 st' Hstep _ IH]; [easy |].
  intros Hl. apply IH. now apply (looping_preserved st).
Qed.

Lemma main_Ok_inv (st st1 : State) :
  main st = Ok tt st1 ->
  exists b v cx,
    document st !! "train" = Some b /\ document st !! "viewport" = Some v
    /\ contexts st !! "viewport" = Some cx
    /\ st1 = redraw_post "viewport" (width v) (height v) cx (setup_post b v st).
Proof.
  intros Hm.
  destruct (document st !! "train") as [b |] eqn:Hb.
  - destruct (document st !! "viewport") as [v |] eqn:Hv.
    + destruct (contexts st !! "viewport") as [cx |] eqn:Hc.
      * rewrite (main_ok b v cx st Hb Hv Hc) in Hm.
        exists b, v, cx. do 3 (split; [first [reflexivity | assumption] |]). congruence.
      * destruct (setup_without_context b v st Hb Hv Hc) as (st' & Hs & _).
        unfold main in Hm. erewrite bind_Throw in Hm by exact Hs. discriminate.
    + destruct (setup_without_viewport b st Hb Hv) as (st' & Hs & _).
      unfold main in Hm. erewrite bind_Throw in Hm by exact Hs. discriminate.
  - destruct (setup_without_train st Hb) as (st' & Hs & _).
    unfold main in Hm. erewrite bind_Throw in Hm by exact Hs. discriminate.
Qed.

(** C4: the render loop is perpetual.  Every call of [redraw] that
    returns has, as its last act, queued [redraw] again; the script,
    started on a page with no callback pending, ends by calling [redraw]
    itself on the state the set-up step leaves; so, animation frame
    after animation frame, a [redraw] is pending and the next frame can
    fire. *)
Theorem render_loop_perpetual (st st1 : State) :
  frames st = [] ->
  main st = Ok tt st1 ->
  (forall ctxt w h s s',
      redraw ctxt w h s = Ok tt s' ->
      frames s' = frames s ++ [Redraw ctxt w h]
      /\ last (trace s') = Some (RequestAnimationFrame (Redraw ctxt w h)))
  /\ (exists ctxt w h st0,
      setup st = Ok (ctxt, w, h) st0
      /\ frames st0 = []
      /\ redraw ctxt w h st0 = Ok tt st1)
  /\ (forall st2,
      rtc frame_step st1 st2 ->
      (exists ctxt w h, frames st2 = [Redraw ctxt w h])
      /\ exists st3, frame_step st2 st3).
Proof.
  intros Hf Hm. split; [| split].
  - intros ctxt w h s s' Hr.
    destruct (redraw_Ok_inv ctxt w h s s' Hr) as (this & cx & -> & Hc & ->).
    unfold redraw_post. simpl_state. split; [reflexivity |].
    rewrite !app_assoc. apply last_snoc.
  - destruct (main_Ok_inv st st1 Hm) as (b & v & cx & Hb & Hv & Hc & ->).
    exists (Some "viewport"%string), (width v : float), (height v : float),
      (setup_post b v st).
    split; [eapply setup_ok; eassumption |].
    split; [exact Hf |].
    apply redraw_ok. exact Hc.
  - intros st2 Hsteps.
    assert (Hloop : looping st2).
    { apply (looping_invariant st1 st2 Hsteps).
      destruct (main_Ok_inv st st1 Hm) as (b & v & cx & Hb & Hv & Hc & ->).
      apply redraw_post_looping; [exact Hf | exact Hc]. }
    split.
    + destruct Hloop as (this & w & h & cx & Hq & _). now exists (Some this), w, h.
    + now apply looping_progress.
Qed.

(** ** The scale of the viewport *)

Lemma viewportScale_truthy (dpr : option float) : truthy (js_or dpr 1) = true.
Proof.
  destruct dpr as [d |]; cbn [js_or]; [| reflexivity].
  destruct (truthy d) eqn:Hd; [exact Hd | reflexivity].
Qed.

Lemma viewportScale_default (dpr : option float) :
  ToBoolean dpr = false -> js_or dpr 1 = 1.
Proof.
  destruct dpr as [d |]; cbn [ToBoolean js_or]; [| reflexivity].
  now intros ->.
Qed.


(** C8, amended: [viewportScale] is never zero, [NaN] or undefined.  When
    [window.devicePixelRatio] is falsy it is 1, and the buffer keeps its
    width and height, so a positive size stays positive.  A truthy ratio
    is used as it is; the resized buffer is then positive when the scaled
    width and height are at least 1 (and below [2^32]).  A ratio below 1
    can scale a small canvas down to nothing. *)
Theorem viewportScale_never_zero (b v : Element) (cx : Context2D) (st : State) :
  document st !! "train" = Some b ->
  document st !! "viewport" = Some v ->
  contexts st !! "viewport" = Some cx ->
  let dpr := devicePixelRatio st in
  let viewportScale := js_or dpr 1 in
  truthy viewportScale = true
  /\ (ToBoolean dpr = false -> viewportScale = 1)
  /\ (forall d, dpr = Some d -> truthy d = true -> viewportScale = d)
  /\ exists ctxt st' v',
       setup st = Ok (ctxt, width v, height v) st'
       /\ document st' !! "viewport" = Some v'
       /\ (ToBoolean dpr = false -> width v' = width v /\ height v' = height v)
       /\ ((1 <=? width v * viewportScale) = true ->
           (width v * viewportScale <? 4294967296) = true ->
           (0 < pixels (width v'))%Z)
       /\ ((1 <=? height v * viewportScale) = true ->
           (height v * viewportScale <? 4294967296) = true ->
           (0 < pixels (height v'))%Z).
Proof.
  intros Hb Hv Hc dpr viewportScale.
  split; [apply viewportScale_truthy |].
  split; [apply viewportScale_default |].
  split; [intros d Hd Ht; unfold viewportScale; rewrite Hd; cbn [js_or]; now rewrite Ht |].
  eexists. eexists. eexists.
  split; [eapply setup_ok; eassumption |].
  split; [apply lookup_insert_eq |].
  cbn [resized width height]. fold dpr. fold viewportScale. split; [| split].
  - intros Hf. unfold viewportScale. rewrite (viewportScale_default dpr Hf), !mul_one_r.
    split; apply set_dimension_of_dimension.
  - intros Hge Hlt. now apply set_dimension_positive.
  - intros Hge Hlt. now apply set_dimension_positive.
Qed.

(** ** Clicks and frames *)

Lemma train_click_ok (st : State) :
  train_click st
  = Ok tt (mkState (document st) (contexts st) (devicePixelRatio st)
             (Simulation_train (simulation st)).2 (heap st) (frames st)
             (trace st ++ [SimTrain; ConsoleLog (Simulation_train (simulation st)).1])).
Proof.
  unfold train_click, simulation_train, console_log, emit, mbind, M_bind.
  destruct (Simulation_train (simulation st)) as [s sim']. norm_state.
  cbn [fst snd]. now rewrite <- app_assoc.
Qed.

Lemma click_keeps (id : string) (st st' : State) :
  click id st = Ok tt st' ->
  document st' = document st /\ contexts st' = contexts st
  /\ frames st' = frames st /\ heap st' = heap st.
Proof.
  unfold click. intros Hclick.
  destruct (document st !! id) as [e |]; [destruct (onclick e) as [[] |] |].
  - cbn [run_handler] in Hclick. rewrite train_click_ok in Hclick.
    injection Hclick as <-. now repeat split.
  - injection Hclick as <-. now repeat split.
  - injection Hclick as <-. now repeat split.
Qed.

(** The script has run: the loop is alive and the train button carries
    its handler. *)
Lemma page_step_keeps (st st' : State) :
  page_step st st' ->
  looping st /\ (exists e, document st !! "train" = Some e /\ onclick e = Some TrainClick) ->
  looping st' /\ (exists e, document st' !! "train" = Some e /\ onclick e = Some TrainClick).
Proof.
  intros Hstep [Hloop Htrain]. destruct Hstep as [st st' Hframe | st id st' Hclick].
  - split; [now apply (looping_preserved st) |].
    pose proof Hloop as (this & w & h & cx & Hf & Hc).
    destruct Hframe as [st cb rest st' Hq Hrun].
    rewrite Hf in Hq. injection Hq as <- <-. cbn [run_callback] in Hrun.
    rewrite (redraw_ok this w h cx) in Hrun by exact Hc.
    injection Hrun as <-. exact Htrain.
  - destruct (click_keeps id st st' Hclick) as (Hd & Hc & Hf & _).
    rewrite Hd. split; [| exact Htrain].
    destruct Hloop as (this & w & h & cx & Hq & Hcx).
    exists this, w, h, cx. now rewrite Hf, Hc.
Qed.

Lemma page_steps_keep (st st' : State) :
  rtc page_step st st' ->
  looping st /\ (exists e, document st !! "train" = Some e /\ onclick e = Some TrainClick) ->
  looping st' /\ (exists e, document st' !! "train" = Some e /\ onclick e = Some TrainClick).
Proof.
  intros Hsteps. induction Hsteps as [st | st st1 st' Hstep _ IH]; [easy |].
  intros Hst. apply IH. now apply (page_step_keeps st).
Qed.

Lemma main_ready (st st1 : State) :
  frames st = [] ->
  main st = Ok tt st1 ->
  looping st1 /\ (exists e, document st1 !! "train" = Some e /\ onclick e = Some TrainClick).
Proof.
  intros Hf Hm.
  destruct (main_Ok_inv st st1 Hm) as (b & v & cx & Hb & Hv & Hc & ->). split.
  - apply redraw_post_looping; [exact Hf | exact Hc].
  - exists (set_onclick TrainClick b). split; [| reflexivity].
    unfold redraw_post, setup_post. norm_state.
    rewrite lookup_insert_ne by discriminate. apply lookup_insert_eq.
Qed.

(** X1: once the script has run, and whatever frames and clicks have
    happened since, a click on the train button calls
    [simulation.train()] once and logs its summary; it draws nothing and
    leaves the frame queue, the contexts and the document alone. *)
Theorem click_train_trains_once (st st1 st2 : State) :
  frames st = [] ->
  main st = Ok tt st1 ->
  rtc page_step st1 st2 ->
  exists st3,
    click "train" st2 = Ok tt st3
    /\ trace st3 = trace st2
         ++ [SimTrain; ConsoleLog (Simulation_train (simulation st2)).1]
    /\ simulation st3 = (Simulation_train (simulation st2)).2
    /\ frames st3 = frames st2
    /\ contexts st3 = contexts st2
    /\ document st3 = document st2.
Proof.
  intros Hf Hm Hsteps.
  destruct (page_steps_keep st1 st2 Hsteps (main_ready st st1 Hf Hm))
    as (_ & e & He & Hh).
  eexists. split.
  - unfold click. rewrite He, Hh. cbn [run_handler]. apply train_click_ok.
  - now repeat split.
Qed.

(** X2: clicks do not stop the render loop: in every state the page
    reaches by frames and clicks after the script has run, [redraw] is
    the one pending callback and the next frame can fire. *)
Theorem render_loop_survives_clicks (st st1 st2 : State) :
  frames st = [] ->
  main st = Ok tt st1 ->
  rtc page_step st1 st2 ->
  (exists ctxt w h, frames st2 = [Redraw ctxt w h])
  /\ exists st3, frame_step st2 st3.
Proof.
  intros Hf Hm Hsteps.
  destruct (page_steps_keep st1 st2 Hsteps (main_ready st st1 Hf Hm)) as (Hloop & _).
  split; [| now apply looping_progress].
  destruct Hloop as (this & w & h & cx & Hq & _). now exists (Some this), w, h.
Qed.

(** X3: a snapshot object, once on the heap, is never altered: neither a
    frame nor a click changes an object that is already there. *)
Theorem heap_objects_persist (st st' : State) (loc : nat) (o : JsObject) :
  rtc page_step st st' ->
  heap st !! loc = Some o ->
  heap st' !! loc = Some o.
Proof.
  intros Hsteps. induction Hsteps as [st | st st1 st' Hstep _ IH]; [easy |].
  intros Hl. apply IH. destruct Hstep as [st st1 Hframe | st id st1 Hclick].
  - destruct Hframe as [st cb rest st1 Hq Hrun]. destruct cb as [ctxt w h].
    cbn [run_callback] in Hrun.
    destruct (redraw_Ok_inv ctxt w h _ st1 Hrun) as (this & cx & _ & _ & ->).
    unfold redraw_post. norm_state. now apply lookup_app_l_Some.
  - destruct (click_keeps id st st1 Hclick) as (_ & _ & _ & Hh). now rewrite Hh.
Qed.

(** ** What the set-up step touches *)

(** X4: the set-up step changes two elements only: the train button gets
    its handler and nothing else; the viewport keeps its own handler;
    every other element of the page and the frame queue are as before.
    Besides the DOM, the step makes three host calls: the constructor of
    the simulation, one [world()] whose result is not used, and one
    [scale] of the context with the same factor on both axes. *)
Theorem setup_touches_two_elements (b v : Element) (cx : Context2D) (st : State) :
  document st !! "train" = Some b ->
  document st !! "viewport" = Some v ->
  contexts st !! "viewport" = Some cx ->
  exists ctxt st' b' v',
    setup st = Ok (ctxt, width v, height v) st'
    /\ document st' !! "train" = Some b'
    /\ onclick b' = Some TrainClick
    /\ (width b', height b', style_width b', style_height b')
       = (width b, height b, style_width b, style_height b)
    /\ document st' !! "viewport" = Some v'
    /\ onclick v' = onclick v
    /\ (forall id, id <> "train"%string -> id <> "viewport"%string ->
                   document st' !! id = document st !! id)
    /\ frames st' = frames st
    /\ trace st' = trace st
         ++ [SimNew; SimWorld;
             Canvas "viewport" (Scale (js_or (devicePixelRatio st) 1)
                                      (js_or (devicePixelRatio st) 1))].
Proof.
  intros Hb Hv Hc. eexists. eexists. eexists. eexists.
  split; [eapply setup_ok; eassumption |].
  unfold setup_post. norm_state.
  split; [rewrite lookup_insert_ne by discriminate; apply lookup_insert_eq |].
  split; [reflexivity |]. split; [reflexivity |].
  split; [apply lookup_insert_eq |]. split; [reflexivity |].
  split; [| now repeat split].
  intros id Ht Hp. now rewrite !lookup_insert_ne by congruence.
Qed.

(** X5: the script is not all-or-nothing.  When the canvas gives no 2D
    context, the [TypeError] comes only at [ctxt.scale]: by then the
    train button has its handler and the viewport has been resized (its
    buffer to the scaled size converted to canvas dimensions, its CSS
    size to the initial size), and nothing has been drawn or requested. *)
Theorem missing_context_leaves_page_resized (b v : Element) (st : State) :
  document st !! "train" = Some b ->
  document st !! "viewport" = Some v ->
  contexts st !! "viewport" = None ->
  exists st' b' v',
    main st = Throw (TypeError "Cannot read properties of null") st'
    /\ document st' !! "train" = Some b'
    /\ onclick b' = Some TrainClick
    /\ document st' !! "viewport" = Some v'
    /\ width v' = set_dimension default_width
                     (width v * js_or (devicePixelRatio st) 1)
    /\ height v' = set_dimension default_height
                      (height v * js_or (devicePixelRatio st) 1)
    /\ style_width v' = (Number_toString (width v) +:+ "px")%string
    /\ style_height v' = (Number_toString (height v) +:+ "px")%string
    /\ trace st' = trace st ++ [SimNew; SimWorld]
    /\ frames st' = frames st.
Proof.
  intros Hb Hv Hc. eexists. eexists. eexists. split.
  - unfold main. apply bind_Throw. unfold setup.
    step_with ltac:(reflexivity).
    do 2 run_elem.
    step_with ltac:(apply simulation_world_ok).
    run_elem.
    step_with ltac:(eapply getContext_null; norm_state; eassumption).
    do 2 run_elem.
    step_with ltac:(reflexivity).
    do 4 run_elem.
    erewrite bind_Throw by reflexivity. reflexivity.
  - norm_state.
    split; [rewrite !lookup_insert_ne by discriminate; apply lookup_insert_eq |].
    split; [reflexivity |].
    split; [apply lookup_insert_eq |].
    unfold new_Simulation. norm_state. rewrite <- app_assoc.
    now repeat split.
Qed.

(** X6: when the train button is missing, the script stops at its first
    DOM access: the simulation has been constructed, but the document
    and the contexts are untouched and [world()] was never called. *)
Theorem missing_train_leaves_page_untouched (st : State) :
  document st !! "train" = None ->
  exists st',
    main st = Throw (TypeError "Cannot set properties of null") st'
    /\ document st' = document st
    /\ contexts st' = contexts st
    /\ heap st' = heap st
    /\ frames st' = frames st
    /\ trace st' = trace st ++ [SimNew].
Proof.
  intros Hb. eexists. split.
  - unfold main. apply bind_Throw. unfold setup.
    step_with ltac:(reflexivity).
    step_with ltac:(apply getElementById_null; norm_state; eassumption).
    erewrite bind_Throw by reflexivity. reflexivity.
  - now repeat split.
Qed.

(** ** Frame after frame *)

Lemma no_scale_in_foods (this : string) (w h : float) (os : list JsObject) :
  List.filter is_Scale (map (Canvas this) (flat_map (food_calls w h) os)) = [].
Proof.
  induction os as [| o os IH]; [reflexivity |].
  cbn [flat_map]. rewrite map_app, List.filter_app, IH. reflexivity.
Qed.

Lemma no_scale_in_animals (this : string) (w h : float) (os : list JsObject) :
  List.filter is_Scale (map (Canvas this) (flat_map (animal_calls w h) os)) = [].
Proof.
  induction os as [| o os IH]; [reflexivity |].
  cbn [flat_map]. rewrite map_app, List.filter_app, IH. reflexivity.
Qed.

Lemma redraw_post_counts (this : string) (w h : float) (cx : Context2D) (st : State) :
  length (List.filter is_SimStep (trace (redraw_post this w h cx st)))
  = S (length (List.filter is_SimStep (trace st)))
  /\ length (List.filter is_Scale (trace (redraw_post this w h cx st)))
     = length (List.filter is_Scale (trace st)).
Proof.
  unfold redraw_post. cbv zeta. norm_state. split.
  - rewrite !List.filter_app, !no_step_in_canvas_calls.
    cbn [List.filter is_SimStep app]. rewrite length_app. cbn [length]. lia.
  - rewrite !List.filter_app, no_scale_in_foods, no_scale_in_animals.
    cbn [List.filter is_Scale app]. now rewrite app_nil_r.
Qed.

Lemma redraw_post_context (this : string) (w h : float) (cx : Context2D) (st : State) :
  contexts st !! this = Some cx ->
  exists cx', contexts (redraw_post this w h cx st) !! this = Some cx'.
Proof.
  intros Hc.
  destruct (fill_with_lookup "rgb(0, 255, 128)"
              (length (w_foods (Simulation_world (Simulation_step (simulation st))).1))
              this cx (contexts st) Hc) as (cx1 & Hc1 & Hs1).
  unfold redraw_post. cbv zeta. norm_state.
  destruct (length (w_animals _)); cbn [fill_with].
  - now exists cx1.
  - eexists. apply lookup_insert_eq.
Qed.

Lemma frames_count (n : nat) (st st' : State) :
  nsteps frame_step n st st' ->
  forall this w h cx,
    frames st = [Redraw (Some this) w h] ->
    contexts st !! this = Some cx ->
    frames st' = [Redraw (Some this) w h]
    /\ document st' = document st
    /\ length (List.filter is_SimStep (trace st'))
       = (length (List.filter is_SimStep (trace st)) + n)%nat
    /\ length (List.filter is_Scale (trace st'))
       = length (List.filter is_Scale (trace st)).
Proof.
  intros Hn. induction Hn as [st | n st st1 st' Hstep _ IH]; intros this w h cx Hq Hc.
  - repeat split; [exact Hq | lia].
  - destruct Hstep as [st cb rest st1 Hq' Hrun].
    rewrite Hq in Hq'. injection Hq' as <- <-. cbn [run_callback] in Hrun.
    rewrite (redraw_ok this w h cx) in Hrun by exact Hc. injection Hrun as <-.
    destruct (redraw_post_context this w h cx (with_frames [] st) Hc) as (cx' & Hc').
    destruct (IH this w h cx' eq_refl Hc') as (Hf & Hd & Hs & Hk).
    destruct (redraw_post_counts this w h cx (with_frames [] st)) as (Hs1 & Hk1).
    rewrite Hf, Hd, Hs, Hk, Hs1, Hk1. repeat split. cbn [trace with_frames]. lia.
Qed.

(** X8: after the script and [n] further animation frames the simulation
    has been stepped [n + 1] times, once per frame drawn; the context
    has been scaled once, by the set-up step, and never by a frame; and
    the pending [redraw] still holds the width and height the canvas had
    before it was resized. *)
Theorem one_step_per_frame (n : nat) (v : Element) (st st1 st2 : State) :
  frames st = [] ->
  document st !! "viewport" = Some v ->
  main st = Ok tt st1 ->
  nsteps frame_step n st1 st2 ->
  frames st2 = [Redraw (Some "viewport") (width v) (height v)]
  /\ length (List.filter is_SimStep (trace st2))
     = (length (List.filter is_SimStep (trace st)) + S n)%nat
  /\ length (List.filter is_Scale (trace st2))
     = S (length (List.filter is_Scale (trace st))).
Proof.
  intros Hf Hv Hm Hn.
  destruct (main_Ok_inv st st1 Hm) as (b & v0 & cx & Hb & Hv0 & Hc & ->).
  assert (v0 = v) as -> by congruence.
  destruct (redraw_post_context "viewport" (width v) (height v) cx
              (setup_post b v st) Hc) as (cx' & Hc').
  assert (Hq : frames (redraw_post "viewport" (width v) (height v) cx (setup_post b v st))
               = [Redraw (Some "viewport") (width v) (height v)]).
  { unfold redraw_post, setup_post. cbv zeta. norm_state. now rewrite Hf. }
  destruct (frames_count n _ st2 Hn "viewport" (width v) (height v) cx' Hq Hc')
    as (Hq2 & _ & Hs & Hk).
  destruct (redraw_post_counts "viewport" (width v) (height v) cx (setup_post b v st))
    as (Hs1 & Hk1).
  rewrite Hq2, Hs, Hk, Hs1, Hk1. unfold setup_post. norm_state.
  rewrite !List.filter_app. cbn [List.filter is_SimStep is_Scale].
  rewrite !length_app. cbn [length]. repeat split; lia.
Qed.

(** ** Worlds at the edge *)

(** X9: on a world without foods and animals a frame draws nothing: it
    clears the viewport, steps the simulation, asks for the world twice
    and requests the next frame; the contexts are as they were. *)
Theorem redraw_of_empty_world (this : string) (w h : float) (cx : Context2D)
    (st : State) :
  let stepped := Simulation_step (simulation st) in
  contexts st !! this = Some cx ->
  w_foods (Simulation_world stepped).1 = [] ->
  w_animals (Simulation_world (Simulation_world stepped).2).1 = [] ->
  exists st',
    redraw (Some this) w h st = Ok tt st'
    /\ trace st' = trace st
         ++ [Canvas this (ClearRect 0 0 w h); SimStep; SimWorld; SimWorld;
             RequestAnimationFrame (Redraw (Some this) w h)]
    /\ contexts st' = contexts st
    /\ frames st' = frames st ++ [Redraw (Some this) w h].
Proof.
  intros stepped Hc Hfoods Hanimals. eexists.
  split; [eapply redraw_ok; eassumption |].
  unfold redraw_post. cbv zeta. norm_state. fold stepped.
  rewrite Hfoods, Hanimals. now repeat split.
Qed.

(** X10: the animals are drawn last, so a frame that draws an animal
    leaves the fill colour white; a frame that draws foods but no animal
    leaves it green.  The stroke colour is never changed. *)
Theorem fill_colour_after_frame (this : string) (w h : float) (cx : Context2D)
    (st : State) :
  let stepped := Simulation_step (simulation st) in
  let foods1 := w_foods (Simulation_world stepped).1 in
  let animals2 := w_animals (Simulation_world (Simulation_world stepped).2).1 in
  contexts st !! this = Some cx ->
  foods1 <> [] \/ animals2 <> [] ->
  exists st',
    redraw (Some this) w h st = Ok tt st'
    /\ contexts st' !! this
       = Some (mkContext2D
                 (if decide (animals2 = []) then "rgb(0, 255, 128)"
                  else "rgb(255, 255, 255)")
                 (strokeStyle cx)).
Proof.
  intros stepped foods1 animals2 Hc Hsome. eexists.
  split; [eapply redraw_ok; eassumption |].
  unfold redraw_post. cbv zeta. norm_state. fold stepped. fold foods1. fold animals2.
  destruct (decide (animals2 = [])) as [Ha | Ha].
  - rewrite Ha. cbn [length fill_with].
    destruct foods1; [destruct Hsome; congruence |].
    cbn [length fill_with]. apply lookup_insert_eq.
  - destruct animals2; [congruence |]. cbn [length fill_with]. apply lookup_insert_eq.
Qed.

(** X11: a food that lacks the field [x] does not make [redraw] throw:
    [undefined * viewportWidth] is [NaN], and the circle of that food is
    traced with [NaN] as the abscissa of its centre. *)
Theorem food_without_x_is_drawn_at_NaN (this : string) (w h : float)
    (cx : Context2D) (st : State) (food : JsObject) :
  contexts st !! this = Some cx ->
  In food (w_foods (Simulation_world (Simulation_step (simulation st))).1) ->
  food !! "x" = None ->
  exists st',
    redraw (Some this) w h st = Ok tt st'
    /\ In (Canvas this (Arc nan (ToNumber (food !! "y") * h) ((0.01 / 2.0) * w)
                            0 (2.0 * Math.PI)))
          (trace st').
Proof.
  intros Hc Hin Hx. eexists.
  split; [eapply redraw_ok; eassumption |].
  unfold redraw_post. cbv zeta. norm_state.
  apply in_or_app. right. apply in_or_app. right. apply in_or_app. left.
  apply in_map. apply in_flat_map. exists food. split; [exact Hin |].
  unfold food_calls, circle_path. rewrite Hx. cbn [ToNumber].
  rewrite mul_nan_l. right. left. reflexivity.
Qed.

(** X12: on a display whose device pixel ratio is 1 the set-up step
    leaves the size of the buffer as it was, exactly. *)
Theorem ratio_one_keeps_buffer (b v : Element) (cx : Context2D) (st : State) :
  document st !! "train" = Some b ->
  document st !! "viewport" = Some v ->
  contexts st !! "viewport" = Some cx ->
  devicePixelRatio st = Some 1 ->
  exists ctxt st' v',
    setup st = Ok (ctxt, width v, height v) st'
    /\ document st' !! "viewport" = Some v'
    /\ width v' = width v
    /\ height v' = height v.
Proof.
  intros Hb Hv Hc Hdpr. eexists. eexists. eexists.
  split; [eapply setup_ok; eassumption |].
  unfold setup_post. norm_state.
  split; [apply lookup_insert_eq |].
  cbn [resized width height]. rewrite Hdpr.
  change (js_or (Some 1) 1) with 1. rewrite !mul_one_r.
  split; apply set_dimension_of_dimension.
Qed.

End Properties.

(** * The script on the concrete host *)

Section Instances.

#[local] Existing Instance Demo.wasm.
#[local] Existing Instance Demo.engine.

Local Open Scope float_scope.

Lemma demo_train (dpr : option float) :
  document (Demo.page dpr) !! "train" = Some Demo.button.
Proof. reflexivity. Defined.

Lemma demo_viewport (dpr : option float) :
  document (Demo.page dpr) !! "viewport" = Some Demo.canvas.
Proof. reflexivity. Defined.

Lemma demo_context (dpr : option float) :
  contexts (Demo.page dpr) !! "viewport" = Some Demo.context.
Proof. reflexivity. Defined.

(** On a display with ratio 2 the 300x150 canvas gets a 600x300 buffer
    and keeps its CSS size. *)
Lemma setup_sizes_viewport_witness :
  exists ctxt st' v',
    setup (Demo.page (Some 2)) = Ok (ctxt, 300, 150) st'
    /\ document st' !! "viewport" = Some v'
    /\ pixels (width v') = 600%Z
    /\ pixels (height v') = 300%Z
    /\ style_width v' = "300px"%string
    /\ style_height v' = "150px"%string.
Proof.
  destruct (setup_sizes_viewport Demo.button Demo.canvas Demo.context
              (Demo.page (Some 2))
              (demo_train _) (demo_viewport _) (demo_context _))
    as (ctxt & st' & v' & Hrun & Hdoc & Hw & Hh & _ & _ & Hsw & Hsh).
  exists ctxt, st', v'. split; [exact Hrun |]. split; [exact Hdoc |].
  split; [rewrite Hw; reflexivity |]. split; [rewrite Hh; reflexivity |].
  split; [exact Hsw | exact Hsh].
Defined.

(** C1 as stated fails: on a display with ratio 1.25 the height of the
    300x150 canvas times the ratio is 187.5, and the buffer is 187 pixels
    high. *)
Lemma fractional_ratio_truncates_buffer :
  exists ctxt st' v',
    setup (Demo.page (Some 1.25)) = Ok (ctxt, 300, 150) st'
    /\ document st' !! "viewport" = Some v'
    /\ height Demo.canvas * js_or (Some 1.25) 1 = 187.5
    /\ pixels (height v') = 187%Z
    /\ ((height v' : float) =? height Demo.canvas * js_or (Some 1.25) 1) = false.
Proof.
  eexists. eexists. eexists.
  split; [vm_compute; reflexivity |].
  split; [vm_compute; reflexivity |].
  repeat split; reflexivity.
Qed.

(** One frame on the page: the clear, the step, the circle of the food,
    the triangle of the animal, the request for the next frame. *)
Lemma redraw_draws_in_order_witness :
  exists st' events,
    redraw (Some "viewport") 300 150 (Demo.page None) = Ok tt st'
    /\ trace st' = trace (Demo.page None) ++ events
    /\ events =
         [Canvas "viewport" (ClearRect 0 0 300 150); SimStep; SimWorld]
         ++ map (Canvas "viewport") (circle_path (0.25 * 300) (0.5 * 150) (0.01 / 2.0 * 300))
         ++ [SimWorld]
         ++ map (Canvas "viewport") (triangle_path (0.5 * 300) (0.75 * 150) (0.01 * 300) 0)
         ++ [RequestAnimationFrame (Redraw (Some "viewport") 300 150)]
    /\ length (List.filter is_SimStep events) = 1%nat.
Proof.
  exact (redraw_draws_in_order "viewport" 300 150 Demo.context (Demo.page None)
           (demo_context None)).
Defined.

(** A triangle of size 3 at (150, 117), pointing along angle 0. *)
Lemma drawTriangle_vertices_witness :
  exists st',
    drawTriangle 150 117 3 0 "viewport" (Demo.page None) = Ok tt st'
    /\ trace st' = trace (Demo.page None)
         ++ map (Canvas "viewport")
              [ BeginPath;
                MoveTo (150 - Demo.sin 0 * 3 * 1.5) (117 + Demo.cos 0 * 3 * 1.5);
                LineTo (150 - Demo.sin (0 + 2.0 / 3.0 * Math.PI) * 3)
                       (117 + Demo.cos (0 + 2.0 / 3.0 * Math.PI) * 3);
                LineTo (150 - Demo.sin (0 + 4.0 / 3.0 * Math.PI) * 3)
                       (117 + Demo.cos (0 + 4.0 / 3.0 * Math.PI) * 3);
                LineTo (150 - Demo.sin 0 * 3 * 1.5) (117 + Demo.cos 0 * 3 * 1.5);
                Stroke;
                Fill ].
Proof.
  exact (drawTriangle_vertices 150 117 3 0 "viewport" (Demo.page None)
           Demo.context (demo_context None)).
Defined.

Lemma drawTriangle_path_closed_witness :
  exists st' p inner,
    drawTriangle 150 117 3 0 "viewport" (Demo.page None) = Ok tt st'
    /\ trace st' = trace (Demo.page None)
         ++ map (Canvas "viewport")
              (BeginPath :: MoveTo p.1 p.2 :: inner ++ [LineTo p.1 p.2; Stroke; Fill])
    /\ Forall (fun c => exists px py, c = LineTo px py) inner.
Proof.
  exact (drawTriangle_path_closed 150 117 3 0 "viewport" (Demo.page None)
           Demo.context (demo_context None)).
Defined.

(** The context of the page starts with a black fill colour. *)
Lemma helpers_set_fillStyle_witness :
  fillStyle Demo.context = "#000000"%string
  /\ (exists st' cx',
        drawTriangle 150 117 3 0 "viewport" (Demo.page None) = Ok tt st'
        /\ contexts st' !! "viewport" = Some cx'
        /\ fillStyle cx' = "rgb(255, 255, 255)"%string)
  /\ (exists st' cx',
        drawCircle 150 117 1.5 "viewport" (Demo.page None) = Ok tt st'
        /\ contexts st' !! "viewport" = Some cx'
        /\ fillStyle cx' = "rgb(0, 255, 128)"%string).
Proof.
  split; [reflexivity |].
  exact (helpers_set_fillStyle 150 117 3 0 1.5 "viewport" (Demo.page None)
           Demo.context (demo_context None)).
Defined.

Lemma helpers_change_only_fillStyle_witness :
  exists st',
    drawCircle 150 117 1.5 "viewport" (Demo.page None) = Ok tt st'
    /\ trace st' = map (Canvas "viewport") (circle_path 150 117 1.5)
    /\ contexts st' !! "viewport" = Some (mkContext2D "rgb(0, 255, 128)" "#000000")
    /\ document st' = document (Demo.page None)
    /\ frames st' = [].
Proof.
  destruct (helpers_change_only_fillStyle 150 117 3 0 1.5 "viewport"
              (Demo.page None) Demo.context (demo_context None))
    as [_ (st' & Hrun & Htrace & Hctx & _ & Hdoc & _ & _ & _ & Hframes)].
  exists st'. split; [exact Hrun |]. split; [exact Htrace |].
  split; [rewrite Hctx; reflexivity |]. split; [exact Hdoc | exact Hframes].
Defined.

(** C5 as stated fails: the fill colour of the context is black before
    [drawCircle] and green after it. *)
Lemma drawCircle_changes_fillStyle :
  exists st',
    drawCircle 75 75 1.5 "viewport" (Demo.page None) = Ok tt st'
    /\ fillStyle <$> contexts (Demo.page None) !! "viewport" = Some "#000000"%string
    /\ fillStyle <$> contexts st' !! "viewport" = Some "rgb(0, 255, 128)"%string.
Proof.
  eexists. split; [vm_compute; reflexivity |]. split; reflexivity.
Qed.

(** A page whose canvas gives no 2D context: the script faults at
    [ctxt.scale], with the canvas already resized and no frame requested. *)
Lemma missing_object_faults_witness :
  contexts Demo.page_without_context !! "viewport" = None
  /\ exists msg st',
       main Demo.page_without_context = Throw (TypeError msg) st'
       /\ frames st' = frames Demo.page_without_context.
Proof.
  split; [reflexivity |].
  apply (missing_object_faults Demo.page_without_context).
  right. right. reflexivity.
Defined.

(** Two runs whose animals differ in the field [vision] only. *)
Lemma redraw_only_reads_snapshots_witness :
  Demo.animal 1 !! "vision" <> Demo.animal 2 !! "vision"
  /\ exists st1' st2',
       redraw (Some "viewport") 300 150 (Demo.page None) = Ok tt st1'
       /\ redraw (Some "viewport") 300 150 (with_simulation 1%nat (Demo.page None))
          = Ok tt st2'
       /\ trace st1' = trace st2'
       /\ contexts st1' = contexts st2'
       /\ frames st1' = frames st2'
       /\ heap st1' = [Demo.food; Demo.animal 1; Demo.food; Demo.animal 1].
Proof.
  split; [discriminate |].
  refine (redraw_only_reads_snapshots "viewport" 300 150 Demo.context
            (Demo.page None) (with_simulation 1%nat (Demo.page None))
            (demo_context None) eq_refl eq_refl eq_refl _ _).
  - repeat constructor.
  - repeat constructor.
Defined.

(** The loop on the page. *)
Lemma render_loop_perpetual_witness :
  exists st1,
    main (Demo.page None) = Ok tt st1
    /\ (exists ctxt w h st0,
         setup (Demo.page None) = Ok (ctxt, w, h) st0
         /\ frames st0 = []
         /\ redraw ctxt w h st0 = Ok tt st1)
    /\ forall st2,
         rtc frame_step st1 st2 ->
         (exists ctxt w h, frames st2 = [Redraw ctxt w h])
         /\ exists st3, frame_step st2 st3.
Proof.
  eexists. split.
  - exact (main_ok Demo.button Demo.canvas Demo.context (Demo.page None)
             (demo_train None) (demo_viewport None) (demo_context None)).
  - apply (render_loop_perpetual (Demo.page None)); [reflexivity |].
    exact (main_ok Demo.button Demo.canvas Demo.context (Demo.page None)
             (demo_train None) (demo_viewport None) (demo_context None)).
Defined.

(** Ratio 2, and no ratio at all, on the 300x150 canvas. *)
Lemma viewportScale_never_zero_witness :
  (exists ctxt st' v',
      setup (Demo.page (Some 2)) = Ok (ctxt, 300, 150) st'
      /\ document st' !! "viewport" = Some v'
      /\ js_or (devicePixelRatio (Demo.page (Some 2))) 1 = 2
      /\ (0 < pixels (width v'))%Z /\ (0 < pixels (height v'))%Z)
  /\ (exists ctxt st' v',
      setup (Demo.page None) = Ok (ctxt, 300, 150) st'
      /\ document st' !! "viewport" = Some v'
      /\ js_or (devicePixelRatio (Demo.page None)) 1 = 1
      /\ width v' = default_width /\ height v' = default_height).
Proof.
  split.
  - destruct (viewportScale_never_zero Demo.button Demo.canvas Demo.context
                (Demo.page (Some 2))
                (demo_train _) (demo_viewport _) (demo_context _))
      as (_ & _ & Hsame & ctxt & st' & v' & Hrun & Hdoc & _ & Hw & Hh).
    exists ctxt, st', v'. split; [exact Hrun |]. split; [exact Hdoc |].
    split; [apply Hsame; reflexivity |].
    split; [apply Hw; reflexivity | apply Hh; reflexivity].
  - destruct (viewportScale_never_zero Demo.button Demo.canvas Demo.context
                (Demo.page None)
                (demo_train _) (demo_viewport _) (demo_context _))
      as (_ & Hone & _ & ctxt & st' & v' & Hrun & Hdoc & Hkeep & _).
    exists ctxt, st', v'. split; [exact Hrun |]. split; [exact Hdoc |].
    split; [apply Hone; reflexivity |].
    apply Hkeep. reflexivity.
Defined.

(** C8 as stated fails: on a display with ratio 0.5, which is truthy and
    used as it is, a canvas of 1 by 1 pixel gets a buffer of 0 by 0. *)
Lemma small_ratio_empties_buffer :
  exists ctxt st' v',
    setup Cases.dot_page = Ok (ctxt, 1, 1) st'
    /\ document Cases.dot_page !! "viewport" = Some Cases.dot
    /\ document st' !! "viewport" = Some v'
    /\ js_or (devicePixelRatio Cases.dot_page) 1 = 0.5
    /\ pixels (width Cases.dot) = 1%Z
    /\ pixels (height Cases.dot) = 1%Z
    /\ pixels (width v') = 0%Z
    /\ pixels (height v') = 0%Z.
Proof.
  eexists. eexists. eexists.
  split; [vm_compute; reflexivity |].
  split; [reflexivity |].
  split; [vm_compute; reflexivity |].
  repeat split; reflexivity.
Qed.

(** The state the script leaves on the page, and the fact that the loop
    is alive in it. *)
Lemma demo_main :
  main (Demo.page None)
  = Ok tt (redraw_post "viewport" 300 150 Demo.context
             (setup_post Demo.button Demo.canvas (Demo.page None))).
Proof.
  exact (main_ok Demo.button Demo.canvas Demo.context (Demo.page None)
           (demo_train None) (demo_viewport None) (demo_context None)).
Defined.

Lemma demo_looping :
  looping (redraw_post "viewport" 300 150 Demo.context
             (setup_post Demo.button Demo.canvas (Demo.page None))).
Proof.
  apply redraw_post_looping; [reflexivity | exact (demo_context None)].
Defined.

(** A frame, then a click on the train button. *)
Lemma click_train_trains_once_witness :
  exists st1 st2 st3,
    main (Demo.page None) = Ok tt st1
    /\ frame_step st1 st2
    /\ click "train" st2 = Ok tt st3
    /\ trace st3 = trace st2 ++ [SimTrain; ConsoleLog "min=0 max=1 avg=0.5"%string]
    /\ frames st3 = frames st2.
Proof.
  destruct (looping_progress _ demo_looping) as [st2 Hstep].
  destruct (click_train_trains_once (Demo.page None) _ st2 eq_refl demo_main
              (rtc_once _ _ (page_frame _ _ Hstep)))
    as (st3 & Hclick & Htrace & _ & Hframes & _).
  eexists. exists st2, st3. split; [exact demo_main |].
  split; [exact Hstep |]. split; [exact Hclick |]. split; [exact Htrace | exact Hframes].
Defined.

(** A click on the train button right after the script. *)
Lemma render_loop_survives_clicks_witness :
  exists st1 st2,
    main (Demo.page None) = Ok tt st1
    /\ click "train" st1 = Ok tt st2
    /\ (exists ctxt w h, frames st2 = [Redraw ctxt w h])
    /\ exists st3, frame_step st2 st3.
Proof.
  eexists. eexists. split; [exact demo_main |].
  split; [reflexivity |].
  apply (render_loop_survives_clicks (Demo.page None) _ _ eq_refl demo_main).
  apply rtc_once. apply page_click with (id := "train"%string). reflexivity.
Defined.

(** The food handed out during the set-up step is still there after the
    next frame. *)
Lemma heap_objects_persist_witness :
  exists st1 st2,
    main (Demo.page None) = Ok tt st1
    /\ frame_step st1 st2
    /\ heap st1 !! 0%nat = Some Demo.food
    /\ heap st2 !! 0%nat = Some Demo.food.
Proof.
  destruct (looping_progress _ demo_looping) as [st2 Hstep].
  eexists. exists st2. split; [exact demo_main |]. split; [exact Hstep |].
  split; [reflexivity |].
  apply (heap_objects_persist _ st2 0%nat Demo.food
           (rtc_once _ _ (page_frame _ _ Hstep))).
  reflexivity.
Defined.

Lemma setup_touches_two_elements_witness :
  exists ctxt st' b',
    setup (Demo.page (Some 2)) = Ok (ctxt, 300, 150) st'
    /\ document st' !! "train" = Some b'
    /\ onclick b' = Some TrainClick
    /\ frames st' = []
    /\ trace st' = [SimNew; SimWorld; Canvas "viewport" (Scale 2 2)].
Proof.
  destruct (setup_touches_two_elements Demo.button Demo.canvas Demo.context
              (Demo.page (Some 2)) (demo_train _) (demo_viewport _) (demo_context _))
    as (ctxt & st' & b' & v' & Hrun & Hb & Hh & _ & _ & _ & _ & Hc & Ht).
  exists ctxt, st', b'. split; [exact Hrun |]. split; [exact Hb |].
  split; [exact Hh |]. split; [exact Hc | exact Ht].
Defined.

(** The page whose canvas gives no context, on a display of ratio 2. *)
Lemma missing_context_leaves_page_resized_witness :
  exists st' v',
    main Demo.page_without_context
    = Throw (TypeError "Cannot read properties of null") st'
    /\ document st' !! "viewport" = Some v'
    /\ pixels (width v') = 600%Z /\ pixels (height v') = 300%Z
    /\ style_width v' = "300px"%string /\ style_height v' = "150px"%string.
Proof.
  destruct (missing_context_leaves_page_resized Demo.button Demo.canvas
              Demo.page_without_context eq_refl eq_refl eq_refl)
    as (st' & b' & v' & Hrun & _ & _ & Hv & Hw & Hh & Hsw & Hsh & _).
  exists st', v'. split; [exact Hrun |]. split; [exact Hv |].
  split; [rewrite Hw; reflexivity |]. split; [rewrite Hh; reflexivity |].
  split; [exact Hsw | exact Hsh].
Defined.

Lemma missing_train_leaves_page_untouched_witness :
  exists st',
    main Cases.page_without_train
    = Throw (TypeError "Cannot set properties of null") st'
    /\ document st' = document Cases.page_without_train
    /\ trace st' = [SimNew].
Proof.
  destruct (missing_train_leaves_page_untouched Cases.page_without_train eq_refl)
    as (st' & Hrun & Hd & _ & _ & _ & Ht).
  exists st'. split; [exact Hrun |]. split; [exact Hd | exact Ht].
Defined.

(** The script and one more frame: two steps, one scale. *)
Lemma one_step_per_frame_witness :
  exists st1 st2,
    main (Demo.page None) = Ok tt st1
    /\ frame_step st1 st2
    /\ frames st2 = [Redraw (Some "viewport") 300 150]
    /\ length (List.filter is_SimStep (trace st2)) = 2%nat
    /\ length (List.filter is_Scale (trace st2)) = 1%nat.
Proof.
  destruct (looping_progress _ demo_looping) as [st2 Hstep].
  eexists. exists st2. split; [exact demo_main |]. split; [exact Hstep |].
  exact (one_step_per_frame 1 Demo.canvas (Demo.page None) _ st2
           eq_refl (demo_viewport None) demo_main (nsteps_once _ _ Hstep)).
Defined.

(** The world of [Demo] has an animal: the frame ends in white. *)
Lemma fill_colour_after_frame_witness :
  exists st',
    redraw (Some "viewport") 300 150 (Demo.page None) = Ok tt st'
    /\ contexts st' !! "viewport"
       = Some (mkContext2D "rgb(255, 255, 255)" "#000000").
Proof.
  refine (fill_colour_after_frame "viewport" 300 150 Demo.context (Demo.page None)
            (demo_context None) _).
  left. discriminate.
Defined.

(** A display of ratio 1. *)
Lemma ratio_one_keeps_buffer_witness :
  exists ctxt st' v',
    setup (Demo.page (Some 1)) = Ok (ctxt, 300, 150) st'
    /\ document st' !! "viewport" = Some v'
    /\ width v' = default_width
    /\ height v' = default_height.
Proof.
  exact (ratio_one_keeps_buffer Demo.button Demo.canvas Demo.context
           (Demo.page (Some 1)) (demo_train _) (demo_viewport _) (demo_context _)
           eq_refl).
Defined.

End Instances.

Section EmptyWorld.

#[local] Existing Instance Cases.empty_wasm.
#[local] Existing Instance Demo.engine.

Local Open Scope float_scope.

Lemma redraw_of_empty_world_witness :
  exists st',
    redraw (Some "viewport") 300 150 Cases.empty_page = Ok tt st'
    /\ trace st' = [Canvas "viewport" (ClearRect 0 0 300 150); SimStep; SimWorld;
                    SimWorld; RequestAnimationFrame (Redraw (Some "viewport") 300 150)]
    /\ contexts st' = contexts Cases.empty_page
    /\ frames st' = [Redraw (Some "viewport") 300 150].
Proof.
  exact (redraw_of_empty_world "viewport" 300 150 Demo.context Cases.empty_page
           eq_refl eq_refl eq_refl).
Defined.

End EmptyWorld.

Section SparseWorld.

#[local] Existing Instance Cases.sparse_wasm.
#[local] Existing Instance Demo.engine.

Local Open Scope float_scope.

Lemma food_without_x_is_drawn_at_NaN_witness :
  exists st',
    redraw (Some "viewport") 300 150 Cases.sparse_page = Ok tt st'
    /\ In (Canvas "viewport" (Arc nan (0.5 * 150) ((0.01 / 2.0) * 300)
                                  0 (2.0 * Math.PI)))
          (trace st').
Proof.
  refine (food_without_x_is_drawn_at_NaN "viewport" 300 150 Demo.context
            Cases.sparse_page Cases.food_without_x eq_refl _ eq_refl).
  left. reflexivity.
Defined.

End SparseWorld.
